(** * pdf_to_html_converter: a shallow embedding of the conversion pipeline

    The development follows the layout of [backend/app]:
    - [Py]            the few Python built-ins the code relies on
                      ([str], [round], [str.join], [range], [enumerate]);
    - [Exceptions]    [exceptions.py] and the exceptions of the libraries;
    - [Effects]       the observable effects of a request (model calls,
                      sub-processes, file reads) as a trace, with a small
                      state-and-error monad;
    - [HtmlGenerator] [html_generator.py];
    - [PdfParser]     [pdf_parser.py];
    - [Main]          [main.py].

    Python [str] is modelled by [string]: the UTF-8 encoding of the text,
    one [ascii] for each byte, which is also how a literal with a
    character outside ASCII is read.  Concatenation, [join] and the
    search for a substring act on the encoding as they act on the text;
    [len] counts characters, not bytes.  Python [int] is modelled by [Z],
    a finite Python [float] by the rational it denotes ([Q]), [bytes] by
    [list byte], a [dict] with fixed keys by a record, [None]-or-value by
    [option].
    The libraries and services the code calls (the PDF library, the table
    library, the command-line tool, the model service) are parameters:
    each function takes the answers of the ones it calls. *)

From Stdlib Require Import ZArith List String Ascii Strings.Byte Bool Lia FinFun.
From Stdlib Require Import QArith Qround Lqa DecimalString DecimalZ DecimalPos.
From Stdlib Require Import Sorted.
Import ListNotations.

Open Scope string_scope.
Open Scope Z_scope.

(* ================================================================== *)
(** ** Python built-ins *)

Module Py.

(** The one-character strings that cannot be written inside a literal. *)
Definition dq : string := String "034"%char EmptyString.
Definition nl : string := String "010"%char EmptyString.

(** [str(n)] for an [int]. *)
Definition str_int (n : Z) : string := NilZero.string_of_int (Z.to_int n).

(** [sep.join(parts)]. *)
Definition join (sep : string) (parts : list string) : string :=
  String.concat sep parts.

(** [str(l)] for a list of [int]: [[1, 2, 3]]. *)
Definition str_int_list (l : list Z) : string :=
  "[" ++ join ", " (map str_int l) ++ "]".

(** A byte [10xxxxxx]: in UTF-8 it continues the character that an
    earlier byte began. *)
Definition is_continuation (c : ascii) : bool :=
  match c with
  | Ascii _ _ _ _ _ _ b6 b7 => b7 && negb b6
  end.

(** The number of characters of a text: every byte of its encoding but
    the continuation bytes begins one. *)
Fixpoint code_points (s : string) : nat :=
  match s with
  | EmptyString => 0%nat
  | String c s' =>
      ((if is_continuation c then 0 else 1) + code_points s')%nat
  end.

(** [len(s)]. *)
Definition len (s : string) : Z := Z.of_nat (code_points s).

(** A byte below [0xC4]: in UTF-8 the bytes from [0xC4] on begin the
    characters from U+0100 on. *)
Definition is_latin1_byte (c : ascii) : bool :=
  (N_of_ascii c <? 196)%N.

(** Whether [s.encode("latin-1")] succeeds: every character of [s] is
    below U+0100. *)
Fixpoint latin1_encodable (s : string) : bool :=
  match s with
  | EmptyString => true
  | String c s' => is_latin1_byte c && latin1_encodable s'
  end.

(** [round(x)] for a finite [float] and no [ndigits]: the nearest
    integer, ties going to the even one. *)
Definition round (x : Q) : Z :=
  let f := Qfloor x in
  match Qcompare (x - inject_Z f) (1 # 2) with
  | Lt => f
  | Gt => f + 1
  | Eq => if Z.even f then f else f + 1
  end.

(** [range(n)]. *)
Definition range (n : Z) : list Z := map Z.of_nat (seq 0 (Z.to_nat n)).

(** [enumerate(l)], counting from [start]. *)
Fixpoint enumerate_from {A} (start : Z) (l : list A) : list (Z * A) :=
  match l with
  | [] => []
  | x :: l' => (start, x) :: enumerate_from (start + 1) l'
  end.

Definition enumerate {A} (l : list A) : list (Z * A) := enumerate_from 0 l.

(** Truthiness of a list: [if l:]. *)
Definition truthy {A} (l : list A) : bool :=
  match l with [] => false | _ :: _ => true end.

(** [needle in haystack] for two strings. *)
Fixpoint contains (haystack needle : string) : bool :=
  if String.prefix needle haystack then true
  else match haystack with
       | EmptyString => false
       | String _ rest => contains rest needle
       end.

(** The same, as a proposition. *)
Definition occurs_in (needle haystack : string) : Prop :=
  exists before after, haystack = before ++ needle ++ after.

End Py.

(* ================================================================== *)
(** ** exceptions.py *)

Module Exceptions.

(** The three classes of [exceptions.py]. *)
Inductive pdf_error_class :=
| PDFProcessingError
| InvalidPDFError
| PasswordProtectedPDFError.

(** [cls.__name__]. *)
Definition class_name (c : pdf_error_class) : string :=
  match c with
  | PDFProcessingError => "PDFProcessingError"
  | InvalidPDFError => "InvalidPDFError"
  | PasswordProtectedPDFError => "PasswordProtectedPDFError"
  end.

(** The default of the [message] argument of each [__init__]. *)
Definition default_message (c : pdf_error_class) : string :=
  match c with
  | PDFProcessingError => "An error occurred during PDF processing"
  | InvalidPDFError =>
      "The provided file is not a valid PDF or is corrupted."
  | PasswordProtectedPDFError =>
      "The PDF is password-protected. Please provide a valid password."
  end.

(** Every exception a request can meet.  [PDFError] is an instance of
    one of the classes above, carrying its [message] attribute;
    [HTTPException] is FastAPI's; the three next ones are what
    [subprocess.run] raises; [LibraryError] stands for any other
    subclass of [Exception] (what the PDF libraries, the file system or
    the model client raise), with its text. *)
Inductive exn :=
| PDFError (cls : pdf_error_class) (message : string)
| HTTPException (status_code : Z) (detail : string)
| CalledProcessError (returncode : Z)
| FileNotFoundError
| TimeoutExpired
| LibraryError (what : string).

(** [isinstance(e, PDFProcessingError)]. *)
Definition is_pdf_processing_error (e : exn) : bool :=
  match e with PDFError _ _ => true | _ => false end.

(** The outcome of a computation that may raise. *)
Inductive result (A : Type) :=
| Ok (a : A)
| Raise (e : exn).
Arguments Ok {A} a.
Arguments Raise {A} e.

End Exceptions.
Export Exceptions.

(* ================================================================== *)
(** ** Effects of a request *)

Module Effects.

(** The two model configurations the code builds; both use
    [temperature=0]. *)
Inductive model_name := gemini_2_0_flash_lite | gemini_2_0_flash.

(** One [chain.invoke]: the model and the two messages of the prompt
    after substitution of the template variable. *)
Record model_call := {
  call_model : model_name;
  call_temperature : Z;
  call_system : string;
  call_human : string
}.

(** What a request does to the outside world, in order. *)
Inductive event :=
| ModelCall (c : model_call)
| ReadUpload
| WriteTempFile (path : string)
| OpenDocument (path : string)
| OpenPlumber (path : string)
| RunPdfimages (path : string)
| CloseDocument
| RemoveTempFile (path : string).

Definition trace := list event.

(** A computation: it extends the trace and returns or raises. *)
Definition M (A : Type) : Type := trace -> result A * trace.

Definition ret {A} (a : A) : M A := fun t => (Ok a, t).
Definition raise {A} (e : exn) : M A := fun t => (Raise e, t).
Definition bind {A B} (m : M A) (k : A -> M B) : M B :=
  fun t => match m t with
           | (Ok a, t') => k a t'
           | (Raise e, t') => (Raise e, t')
           end.
Definition lift {A} (r : result A) : M A := fun t => (r, t).
Definition emit (e : event) : M unit := fun t => (Ok tt, (t ++ [e])%list).

(** [try: body except: handler]. *)
Definition try_except {A} (body : M A) (handler : exn -> M A) : M A :=
  fun t => match body t with
           | (Ok a, t') => (Ok a, t')
           | (Raise e, t') => handler e t'
           end.

(** [try: body finally: cleanup]; an exception of the clean-up
    replaces the one in flight. *)
Definition try_finally {A} (body : M A) (cleanup : M unit) : M A :=
  fun t => match body t with
           | (r, t') =>
               match cleanup t' with
               | (Ok _, t'') => (r, t'')
               | (Raise e, t'') => (Raise e, t'')
               end
           end.

(** The number of model calls in a trace. *)
Definition is_model_call (e : event) : bool :=
  match e with ModelCall _ => true | _ => false end.

Definition model_calls (t : trace) : list event := filter is_model_call t.

End Effects.
Export Effects.

Notation "x <- m ;; k" := (bind m (fun x => k))
  (at level 61, m at next level, right associativity).
Notation "m ;;; k" := (bind m (fun _ => k))
  (at level 61, right associativity).

(* ================================================================== *)
(** ** The data exchanged between the modules *)

(** One text run of a page, the dict built by
    [extract_text_with_positions]. *)
Module TextBlock.
Record t := {
  text : string;
  bbox : list Q;
  font : string;
  size : Z;
  color : Z
}.
End TextBlock.

(** One extracted image, the dict built by [extract_images]. *)
Module Image.
Record t := {
  name : string;
  bytes : list byte;
  page : Z
}.
End Image.

(** A table of the table extractor: rows of cells, a cell being a string
    or [None]. *)
Definition Cell := option string.
Definition Table := list (list Cell).

(** One entry of the table extractor's result. *)
Module PageTables.
Record t := {
  page_number : Z;
  tables : list Table
}.
End PageTables.

(* ================================================================== *)
(** ** html_generator.py *)

Module HtmlGenerator.
Import Py.

(** [str(cell)], what [map(str, row)] applies to each cell. *)
Definition str_cell (c : Cell) : string :=
  match c with
  | None => "None"
  | Some s => s
  end.

(** [' | '.join(map(str, row))]. *)
Definition row_str (row : list Cell) : string :=
  join " | " (map str_cell row).

(** ['\n'.join([... for row in table])]. *)
Definition table_str (table : Table) : string :=
  join nl (map row_str table).

(** The line appended for one text block. *)
Definition text_line (block : TextBlock.t) : string :=
  "- Text: " ++ dq ++ TextBlock.text block ++ dq
  ++ " | Position (x1,y1,x2,y2): "
  ++ str_int_list (map round (TextBlock.bbox block))
  ++ " | Size: " ++ str_int (TextBlock.size block).

(** The line appended for one image. *)
Definition image_line (image : Image.t) : string :=
  "- Image Filename: " ++ dq ++ Image.name image ++ dq.

(** The two lines appended for the table at position [i]. *)
Definition table_lines (it : Z * Table) : list string :=
  [ nl ++ "--- Table " ++ str_int (fst it + 1) ++ " ---";
    table_str (snd it) ].

Definition tables_heading : string :=
  nl ++ "**PRE-EXTRACTED TABLES (MUST be formatted as Markdown tables):**".

(** [formatted_strings] when [format_data_for_llm] returns. *)
Definition formatted_strings
    (page_text_blocks : list TextBlock.t)
    (page_image_data : list Image.t)
    (page_tables : list Table) : list string :=
  let formatted_strings :=
    ("**Text Elements:**" :: map text_line page_text_blocks)%list in
  let formatted_strings :=
    if truthy page_image_data
    then List.app formatted_strings
           ((nl ++ "**Image Elements:**")
              :: map image_line page_image_data)
    else formatted_strings in
  if truthy page_tables
  then List.app formatted_strings
         (tables_heading :: flat_map table_lines (enumerate page_tables))
  else formatted_strings.

Definition format_data_for_llm
    (page_text_blocks : list TextBlock.t)
    (page_image_data : list Image.t)
    (page_tables : list Table) : string :=
  join nl (formatted_strings page_text_blocks page_image_data page_tables).

Definition MAX_CHARS : Z := 15000.

Definition fallback_heading : string :=
  "# Page Content Too Large for Detailed Analysis".

(** [fallback_md] when the safety valve returns. *)
Definition fallback_md (page_text_blocks : list TextBlock.t) : list string :=
  List.app
    [ fallback_heading;
      "The following is a raw text dump of the page content. Formatting has been simplified to avoid exceeding AI processing limits.";
      nl ++ "---" ++ nl ]
    (map TextBlock.text page_text_blocks).

Definition markdown_system_prompt : string :=
  "You are an expert document analysis AI. Your task is to synthesize raw text elements and pre-extracted table data into a single, clean Markdown document." ++ nl ++
  "1.  **Prioritize Table Data:** Data provided under 'PRE-EXTRACTED TABLES' is highly accurate. You MUST format this data using proper Markdown table syntax (`| Header | ... |`)." ++ nl ++
  "2.  **Use Text for Context:** Use the 'Text Elements' to create surrounding paragraphs and headings. Do NOT repeat text that is already present in the tables." ++ nl ++
  "3.  **Integrate Content:** Merge the tables and other text into a cohesive document." ++ nl ++
  "4.  **Handle Images:** Represent any images using Markdown image syntax." ++ nl ++
  "Your output must be ONLY the raw Markdown content.".

(** The navigation markup of [generate_html_from_markdown]. *)
Definition previous_link (current_page : Z) : string :=
  "<a href=" ++ dq ++ "page-" ++ str_int (current_page - 1) ++ ".html"
  ++ dq ++ ">Previous</a>".

Definition next_link (current_page : Z) : string :=
  "<a href=" ++ dq ++ "page-" ++ str_int (current_page + 1) ++ ".html"
  ++ dq ++ ">Next</a>".

Definition nav_links (current_page total_pages : Z) : list string :=
  ((if current_page >? 1 then [previous_link current_page] else [])
   ++ (if current_page <? total_pages then [next_link current_page]
       else []))%list.

Definition nav_html (current_page total_pages : Z) : string :=
  "<footer><nav>" ++ join " | " (nav_links current_page total_pages)
  ++ "</nav><p>Page " ++ str_int current_page ++ " of "
  ++ str_int total_pages ++ "</p></footer>".

Definition nav_instructions (current_page total_pages : Z) : string :=
  if total_pages >? 1
  then "At the end of the `<body>`, before the closing tag, you MUST include this exact navigation HTML: "
       ++ nav_html current_page total_pages
  else EmptyString.

(** The text of the system prompt before and after [{nav_instructions}]. *)
Definition html_prompt_head : string :=
  nl ++
  "You are an expert front-end developer. Your task is to convert the given content (in Markdown format) into a complete, production-ready HTML5 document based on the specified design requirements." ++ nl ++
  nl ++
  "DESIGN REQUIREMENTS:" ++ nl ++
  "- Layout: Use a single-column, responsive flexbox layout." ++ nl ++
  "- Color scheme: A modern, clean palette with dark grey text (#333), a white background (#FFF), and a subtle blue for links." ++ nl ++
  "- Typography: Use a common sans-serif font like Arial or Helvetica with a base font size of 16px." ++ nl ++
  "- Responsive: The layout must be mobile-first." ++ nl ++
  nl ++
  "OUTPUT FORMAT:" ++ nl ++
  "- A complete HTML5 document." ++ nl ++
  "- All CSS must be embedded in a single `<style>` tag in the `<head>`." ++ nl ++
  "- Use a clean, semantic HTML structure (e.g., <main>, <article>, <h1>, <p>)." ++ nl ++
  "- ".

Definition html_prompt_tail : string :=
  nl ++
  "- Output ONLY the raw HTML code, starting with <!DOCTYPE html>." ++ nl.

Definition html_system_prompt (current_page total_pages : Z) : string :=
  html_prompt_head ++ nav_instructions current_page total_pages
  ++ html_prompt_tail.

Section WithModel.

(** The generative-model service: what a request answers, given
    everything the process did before.  It may raise. *)
Variable model : trace -> model_call -> result string.

(** [chain.invoke(...)] on a [prompt | llm | StrOutputParser()]
    chain. *)
Definition chain_invoke (c : model_call) : M string :=
  fun t => (model t c, (t ++ [ModelCall c])%list).

Definition generate_markdown_from_data
    (page_text_blocks : list TextBlock.t)
    (page_image_data : list Image.t)
    (page_tables : list Table) : M string :=
  let formatted_data :=
    format_data_for_llm page_text_blocks page_image_data page_tables in
  if len formatted_data >? MAX_CHARS
  then ret (join (nl ++ nl) (fallback_md page_text_blocks))
  else
    chain_invoke
      {| call_model := gemini_2_0_flash_lite;
         call_temperature := 0;
         call_system := markdown_system_prompt;
         call_human :=
           "Here is the data for the page:" ++ nl ++ nl ++ formatted_data |}.

Definition generate_html_from_markdown
    (markdown_content : string) (current_page total_pages : Z)
  : M string :=
  chain_invoke
    {| call_model := gemini_2_0_flash;
       call_temperature := 0;
       call_system := html_system_prompt current_page total_pages;
       call_human := "CONTENT:" ++ nl ++ nl ++ markdown_content |}.

End WithModel.

End HtmlGenerator.

(* ================================================================== *)
(** ** The PDF library, as far as the code uses it *)

Module Fitz.

(** A span, a line and a block of [page.get_text("dict")]. *)
Record Span := {
  span_text : string;
  span_bbox : list Q;
  span_font : string;
  span_size : Q;
  span_color : Z
}.

Record Line := { spans : list Span }.

Record Block := { type : Z; lines : list Line }.

(** What [doc.extract_image(xref)] returns: the keys ["image"] and
    ["ext"]. *)
Record BaseImage := { image : list byte; ext : string }.

(** A document handle.  [num_pages], [page_blocks], [page_image_xrefs]
    and [image_of_xref] are the content of the file; [is_closed]
    is the one part of the handle's state the code changes.
    [authenticate] answers 0 when the password is refused. *)
Record Document := {
  name : string;
  is_closed : bool;
  is_encrypted : bool;
  authenticate : string -> Z;
  num_pages : Z;
  page_blocks : Z -> list Block;
  page_image_xrefs : Z -> list Z;
  image_of_xref : Z -> BaseImage
}.

(** [doc.close()]: the same handle, closed. *)
Definition close (doc : Document) : Document :=
  {| name := name doc;
     is_closed := true;
     is_encrypted := is_encrypted doc;
     authenticate := authenticate doc;
     num_pages := num_pages doc;
     page_blocks := page_blocks doc;
     page_image_xrefs := page_image_xrefs doc;
     image_of_xref := image_of_xref doc |}.

(** [doc.page_count]: the library refuses to answer on a closed
    handle. *)
Definition page_count (doc : Document) : result Z :=
  if is_closed doc then Raise (LibraryError "document closed")
  else Ok (num_pages doc).

(** [doc.load_page(n).get_text("dict")["blocks"]],
    [doc.get_page_images(n, full=True)] reduced to the first component
    of each item, and [doc.extract_image(xref)], on a handle that has
    already answered [page_count]. *)
Definition get_text_blocks (doc : Document) (page_num : Z) : list Block :=
  page_blocks doc page_num.

Definition get_page_images (doc : Document) (page_num : Z) : list Z :=
  page_image_xrefs doc page_num.

Definition extract_image (doc : Document) (xref : Z) : BaseImage :=
  image_of_xref doc xref.

(** [bool(doc)]: a handle has no truth value of its own, so Python
    takes [len(doc)], the page count. *)
Definition truth (doc : Document) : result bool :=
  match page_count doc with
  | Ok n => Ok (negb (n =? 0))
  | Raise e => Raise e
  end.

End Fitz.

(** An answer of a library or of a service: a value, or the text of the
    error it raises (never one of the classes of [exceptions.py]). *)
Definition answer (A : Type) : Type := (A + string)%type.

Definition of_answer {A} (a : answer A) : result A :=
  match a with
  | inl v => Ok v
  | inr what => Raise (LibraryError what)
  end.

(* ================================================================== *)
(** ** pdf_parser.py *)

Module PdfParser.
Import Py.

(** One entry of the result of [extract_text_with_positions]. *)
Module PageText.
Record t := {
  page_number : Z;
  blocks : list TextBlock.t
}.
End PageText.

(** How a run of the command-line tool can end.  [Completed] is exit
    status 0, with the files then found in the scratch directory, in
    the order of [os.listdir]; [LaunchFailed] is any other [OSError] of
    the launch (the file is there and may not be executed, say), with its
    text. *)
Inductive run_outcome :=
| Completed (files : list (string * list byte))
| NonZeroExit (returncode : Z)
| NoSuchExecutable
| TimedOut
| LaunchFailed (what : string).

(** [subprocess.run(..., timeout=30, check=True)]. *)
Definition subprocess_run (o : run_outcome)
  : result (list (string * list byte)) :=
  match o with
  | Completed files => Ok files
  | NonZeroExit code => Raise (CalledProcessError code)
  | NoSuchExecutable => Raise FileNotFoundError
  | TimedOut => Raise TimeoutExpired
  | LaunchFailed what => Raise (LibraryError what)
  end.

(** [password or ""]. *)
Definition password_or_empty (password : option string) : string :=
  match password with
  | Some (String c s) => String c s
  | _ => EmptyString
  end.

(** The dict appended for one span. *)
Definition text_block_of_span (span : Fitz.Span) : TextBlock.t :=
  {| TextBlock.text := Fitz.span_text span;
     TextBlock.bbox := Fitz.span_bbox span;
     TextBlock.font := Fitz.span_font span;
     TextBlock.size := round (Fitz.span_size span);
     TextBlock.color := Fitz.span_color span |}.

(** [page_text_blocks] for one page: the spans of the lines of the
    blocks of type 0, in order. *)
Definition page_text_blocks (blocks : list Fitz.Block) : list TextBlock.t :=
  flat_map
    (fun block =>
       if Fitz.type block =? 0
       then flat_map
              (fun line => map text_block_of_span (Fitz.spans line))
              (Fitz.lines block)
       else [])
    blocks.

Definition extract_text_with_positions (docs : Fitz.Document)
  : M (list PageText.t) :=
  n <- lift (Fitz.page_count docs) ;;
  ret (map
         (fun page_num =>
            {| PageText.page_number := page_num;
               PageText.blocks :=
                 page_text_blocks (Fitz.get_text_blocks docs page_num) |})
         (range n)).

(** [f"image_{page_num}_{xref}.{image_ext}"]. *)
Definition image_name (page_num xref : Z) (image_ext : string) : string :=
  "image_" ++ str_int page_num ++ "_" ++ str_int xref ++ "." ++ image_ext.

(** The images appended for one page by the primary path. *)
Definition page_images (doc : Fitz.Document) (page_num : Z)
  : list Image.t :=
  map
    (fun ix : Z * Z =>
       let xref := snd ix in
       let base_image := Fitz.extract_image doc xref in
       {| Image.name := image_name page_num xref (Fitz.ext base_image);
          Image.bytes := Fitz.image base_image;
          Image.page := page_num |})
    (enumerate (Fitz.get_page_images doc page_num)).

(** The dict appended for one file of the scratch directory. *)
Definition fallback_image (f : string * list byte) : Image.t :=
  {| Image.name := fst f; Image.bytes := snd f; Image.page := 0 |}.

(** What one page adds to [all_tables]: an entry when [tables] is not
    empty. *)
Definition tables_entry (pt : Z * list Table) : list PageTables.t :=
  if truthy (snd pt)
  then [ {| PageTables.page_number := fst pt;
            PageTables.tables := snd pt |} ]
  else [].

Section WithLibraries.

(** [fitz.open(path)], [pdfplumber.open(path).pages] with the result
    of [extract_tables()] for each page, and a run of [pdfimages] on
    a path. *)
Variable fitz_open : string -> answer Fitz.Document.
Variable plumber_pages : string -> answer (list (list Table)).
Variable pdfimages : string -> run_outcome.

Definition open_pdf_from_path
    (file_path : string) (password : option string)
  : M Fitz.Document :=
  try_except
    (emit (OpenDocument file_path) ;;;
     doc <- lift (of_answer (fitz_open file_path)) ;;
     if Fitz.is_encrypted doc
     then
       if Fitz.authenticate doc (password_or_empty password) =? 0
       then emit CloseDocument ;;; ret (Fitz.close doc)
       else ret doc
     else ret doc)
    (fun e => raise e).

Definition extract_tables_with_pdfplumber (file_path : string)
  : M (list PageTables.t) :=
  emit (OpenPlumber file_path) ;;;
  pages <- lift (of_answer (plumber_pages file_path)) ;;
  ret (flat_map tables_entry (enumerate pages)).

Definition _extract_images_with_fallback (file_path : string)
  : M (list Image.t) :=
  try_except
    (emit (RunPdfimages file_path) ;;;
     files <- lift (subprocess_run (pdfimages file_path)) ;;
     ret (map fallback_image files))
    (fun e =>
       match e with
       | CalledProcessError _ | FileNotFoundError => ret []
       | _ => raise e
       end).

Definition extract_images (doc : Fitz.Document) : M (list Image.t) :=
  n <- lift (Fitz.page_count doc) ;;
  let all_images := flat_map (page_images doc) (range n) in
  if negb (truthy all_images) && (n >? 0)
  then _extract_images_with_fallback (Fitz.name doc)
  else ret all_images.

End WithLibraries.

End PdfParser.

(* ================================================================== *)
(** ** main.py *)

Module Main.
Import Py.

(** The uploaded file: [file.filename], [file.content_type] and what
    [await file.read()] returns. *)
Record UploadFile := {
  filename : option string;
  content_type : option string;
  body : list byte
}.

(** What [zip_file.writestr] is given: a [str] or [bytes]. *)
Inductive payload :=
| Text (s : string)
| Binary (b : list byte).

(** The archive: its entries in the order they were written. *)
Definition archive := list (string * payload).

Definition writestr (zip_file : archive) (arcname : string) (data : payload)
  : archive :=
  (zip_file ++ [(arcname, data)])%list.

Definition entry_names (zip_file : archive) : list string :=
  map fst zip_file.

(** The JSON bodies the application sends. *)
#[warnings="-register-all"] Inductive json :=
| JString (s : string)
| JObject (fields : list (string * json)).

Inductive Response :=
| JSONResponse (status_code : Z) (content : json)
| StreamingResponse (zip_buffer : archive) (media_type : string)
                    (content_disposition : string).

Definition status_of (r : Response) : Z :=
  match r with
  | JSONResponse status_code _ => status_code
  | StreamingResponse _ _ _ => 200
  end.

Definition pdf_processing_exception_handler
    (cls : pdf_error_class) (message : string) : Response :=
  JSONResponse 400
    (JObject
       [ ("error",
          JObject [ ("type", JString (class_name cls));
                    ("message", JString message) ]) ]).

(** The [except] branch of [catch_exceptions_middleware]. *)
Definition catch_exceptions_middleware_response : Response :=
  JSONResponse 500
    (JObject [ ("message", JString "An internal server error occurred.") ]).

(** The framework's own answer to an [HTTPException]. *)
Definition http_exception_response (status_code : Z) (detail : string)
  : Response :=
  JSONResponse status_code (JObject [ ("detail", JString detail) ]).

Definition MAX_FILE_SIZE : Z := 50 * 1024 * 1024.

Definition page_entry_name (current_page : Z) : string :=
  "page-" ++ str_int current_page ++ ".html".

Definition image_entry_name (image : Image.t) : string :=
  "images/" ++ Image.name image.

Definition stylesheet : string :=
  "body { font-family: sans-serif; color: #333; margin: 2em; }".

(** [all_text_data[page_num]] for [page_num >= 0]. *)
Definition index {A} (l : list A) (i : Z) : result A :=
  match nth_error l (Z.to_nat i) with
  | Some x => Ok x
  | None => Raise (LibraryError "list index out of range")
  end.

(** [[img for img in all_image_data if img['page'] == page_num]]. *)
Definition page_image_data (all_image_data : list Image.t) (page_num : Z)
  : list Image.t :=
  filter (fun img => Image.page img =? page_num) all_image_data.

(** [next((t['tables'] for t in all_table_data
           if t['page_number'] == page_num), [])]. *)
Definition page_tables (all_table_data : list PageTables.t) (page_num : Z)
  : list Table :=
  match find (fun t => PageTables.page_number t =? page_num)
             all_table_data with
  | Some t => PageTables.tables t
  | None => []
  end.

(** The images written after the stylesheet. *)
Definition write_images (zip_file : archive) (all_image_data : list Image.t)
  : archive :=
  fold_left
    (fun z image =>
       writestr z (image_entry_name image) (Binary (Image.bytes image)))
    all_image_data zip_file.

Section WithWorld.

(** The world of one request: the model service, what the PDF
    library and the table library make of a file with given
    contents, the command-line tool, the path of the temporary
    file, and [os.path.splitext(name)[0]]. *)
Variable model : trace -> model_call -> result string.
Variable fitz_parse : list byte -> answer Fitz.Document.
Variable plumber_parse : list byte -> answer (list (list Table)).
Variable pdfimages : string -> PdfParser.run_outcome.
Variable temp_file_path : string.
Variable splitext_root : string -> string.

(** The body of the loop over the pages. *)
Definition convert_page
    (total_pages : Z)
    (all_text_data : list PdfParser.PageText.t)
    (all_image_data : list Image.t)
    (all_table_data : list PageTables.t)
    (zip_file : archive) (page_num : Z) : M archive :=
  let current_page := page_num + 1 in
  entry <- lift (index all_text_data page_num) ;;
  let page_text_blocks := PdfParser.PageText.blocks entry in
  let page_image_data := page_image_data all_image_data page_num in
  let page_tables := page_tables all_table_data page_num in
  markdown_content <-
    HtmlGenerator.generate_markdown_from_data model
      page_text_blocks page_image_data page_tables ;;
  final_html <-
    HtmlGenerator.generate_html_from_markdown model
      markdown_content current_page total_pages ;;
  ret (writestr zip_file (page_entry_name current_page) (Text final_html)).

(** [for x in xs: acc = step acc x]. *)
Fixpoint for_each {A S} (step : S -> A -> M S) (xs : list A) (acc : S)
  : M S :=
  match xs with
  | [] => ret acc
  | x :: xs' => acc' <- step acc x ;; for_each step xs' acc'
  end.

(** The [with zipfile.ZipFile(...)] block. *)
Definition build_archive
    (total_pages : Z)
    (all_text_data : list PdfParser.PageText.t)
    (all_image_data : list Image.t)
    (all_table_data : list PageTables.t) : M archive :=
  zip_file <-
    for_each
      (convert_page total_pages all_text_data all_image_data
                    all_table_data)
      (range total_pages) [] ;;
  let zip_file := writestr zip_file "style.css" (Text stylesheet) in
  ret (if truthy all_image_data
       then write_images zip_file all_image_data
       else zip_file).

(** [f"converted_{os.path.splitext(file.filename)[0]}.zip"]. *)
Definition download_filename (file : UploadFile) : result string :=
  match filename file with
  | Some n => Ok ("converted_" ++ splitext_root n ++ ".zip")
  | None =>
      Raise (LibraryError "expected str, bytes or os.PathLike object, not NoneType")
  end.

(** The [try] block once the document is open.  [StreamingResponse]
    encodes the values of its headers as Latin-1 when it is built. *)
Definition process (file : UploadFile) (doc : Fitz.Document)
  : M Response :=
  total_pages <- lift (Fitz.page_count doc) ;;
  all_text_data <- PdfParser.extract_text_with_positions doc ;;
  all_image_data <- PdfParser.extract_images pdfimages doc ;;
  all_table_data <-
    PdfParser.extract_tables_with_pdfplumber
      (fun _ => plumber_parse (body file)) temp_file_path ;;
  zip_buffer <-
    build_archive total_pages all_text_data all_image_data
                  all_table_data ;;
  download_filename <- lift (download_filename file) ;;
  let content_disposition := "attachment; filename=" ++ download_filename in
  if latin1_encodable content_disposition
  then ret (StreamingResponse zip_buffer "application/zip"
              content_disposition)
  else raise (LibraryError "'latin-1' codec can't encode characters").

(** The two [except] clauses of the endpoint. *)
Definition on_exception (e : exn) : M Response :=
  if is_pdf_processing_error e then raise e
  else raise (HTTPException 500 "An internal server error occurred.").

(** The [finally] clause, [doc] being [None] or a handle.  The file
    system is taken to work: the temporary file was written, so
    [temp_file_path] is set and [os.path.exists] answers [True] (a write
    that fails is not part of this model). *)
Definition cleanup (doc : option Fitz.Document) : M unit :=
  match doc with
  | None => ret tt
  | Some d =>
      b <- lift (Fitz.truth d) ;;
      if b then emit CloseDocument else ret tt
  end ;;;
  emit (RemoveTempFile temp_file_path).

(** Runs [m] and hands back how it ended. *)
Definition attempt {A} (m : M A) : M (result A) :=
  fun t => match m t with (r, t') => (Ok r, t') end.

Definition convert_pdf_to_html (file : UploadFile) : M Response :=
  if negb (match content_type file with
           | Some ct => String.eqb ct "application/pdf"
           | None => false
           end)
  then raise (HTTPException 400 "Invalid file type.")
  else
    emit ReadUpload ;;;
    let pdf_bytes := body file in
    if Z.of_nat (List.length pdf_bytes) >? MAX_FILE_SIZE
    then raise (HTTPException 413 "File size exceeds limit.")
    else
      emit (WriteTempFile temp_file_path) ;;;
      opened <-
        attempt
          (PdfParser.open_pdf_from_path
             (fun _ => fitz_parse pdf_bytes) temp_file_path None) ;;
      try_finally
        (try_except (doc <- lift opened ;; process file doc)
                    on_exception)
        (cleanup (match opened with
                  | Ok doc => Some doc
                  | Raise _ => None
                  end)).

(** The application around the endpoint: the handler registered for
    [PDFProcessingError], the framework's handling of
    [HTTPException], and the catch-all middleware. *)
Definition respond (file : UploadFile) (t : trace) : Response * trace :=
  match convert_pdf_to_html file t with
  | (Ok response, t') => (response, t')
  | (Raise (PDFError cls message), t') =>
      (pdf_processing_exception_handler cls message, t')
  | (Raise (HTTPException status_code detail), t') =>
      (http_exception_response status_code detail, t')
  | (Raise _, t') => (catch_exceptions_middleware_response, t')
  end.

End WithWorld.

End Main.

(* ================================================================== *)
(** ** Reference descriptions and sample inputs used in the statements *)

(** Whether the character [c] occurs in [s]. *)
Fixpoint has_char (c : ascii) (s : string) : bool :=
  match s with
  | EmptyString => false
  | String c' s' => Ascii.eqb c c' || has_char c s'
  end.

(** The texts of the blocks of a page, each on a paragraph of its own. *)
Fixpoint text_dump (blocks : list TextBlock.t) : string :=
  match blocks with
  | [] => EmptyString
  | b :: rest => Py.nl ++ Py.nl ++ TextBlock.text b ++ text_dump rest
  end.

(** The tables the table library found on page [k] of a document whose
    pages gave [pages]. *)
Definition tables_on_page (pages : list (list Table)) (k : Z) : list Table :=
  if k <? 0 then [] else nth (Z.to_nat k) pages [].

(** The names [page-1.html] ... [page-N.html]. *)
Definition page_entry_names (N : Z) : list string :=
  map (fun page_num => Main.page_entry_name (page_num + 1)) (Py.range N).

(** [m] raises nothing but exceptions that satisfy [P]. *)
Definition raises_only {A} (P : exn -> Prop) (m : M A) : Prop :=
  forall t e t', m t = (Raise e, t') -> P e.

(** An exception that is none of the classes of [exceptions.py]. *)
Definition foreign (e : exn) : Prop := is_pdf_processing_error e = false.

(** A model service that raises exceptions of its own only. *)
Definition foreign_model (model : trace -> model_call -> result string)
  : Prop :=
  forall t c e, model t c = Raise e -> foreign e.

(** The number of model calls in a trace. *)
Definition count_model_calls (t : trace) : nat :=
  List.length (model_calls t).

(** The four JSON answers of the application that do not depend on the
    request. *)
Definition fixed_answers : list Main.Response :=
  [ Main.JSONResponse 400
      (Main.JObject [("detail", Main.JString "Invalid file type.")]);
    Main.JSONResponse 413
      (Main.JObject [("detail", Main.JString "File size exceeds limit.")]);
    Main.JSONResponse 500
      (Main.JObject
         [("detail", Main.JString "An internal server error occurred.")]);
    Main.JSONResponse 500
      (Main.JObject
         [("message", Main.JString "An internal server error occurred.")]) ].

(** The number of characters of a list of strings. *)
Fixpoint total_length (l : list string) : nat :=
  match l with
  | [] => 0%nat
  | s :: l' => (Py.code_points s + total_length l')%nat
  end.

(** A run of the tool that [_extract_images_with_fallback] survives. *)
Definition ends_quietly (o : PdfParser.run_outcome) : Prop :=
  match o with
  | PdfParser.Completed _ => True
  | PdfParser.NonZeroExit _ => True
  | PdfParser.NoSuchExecutable => True
  | PdfParser.TimedOut => False
  | PdfParser.LaunchFailed _ => False
  end.

(** The two stages of a page once its bundle is made: the text blocks,
    the images and the tables of the page. *)
Definition synthesize_page
    (model : trace -> model_call -> result string)
    (total_pages : Z) (zip_file : Main.archive) (page_num : Z)
    (text_blocks : list TextBlock.t) (images : list Image.t)
    (tables : list Table) : M Main.archive :=
  markdown_content <-
    HtmlGenerator.generate_markdown_from_data model text_blocks images
      tables ;;
  final_html <-
    HtmlGenerator.generate_html_from_markdown model markdown_content
      (page_num + 1) total_pages ;;
  ret (Main.writestr zip_file (Main.page_entry_name (page_num + 1))
         (Main.Text final_html)).

(** The call of the Markdown stage for a description, and the call of
    the HTML stage for a Markdown text. *)
Definition markdown_call (formatted_data : string) : model_call :=
  {| call_model := gemini_2_0_flash_lite;
     call_temperature := 0;
     call_system := HtmlGenerator.markdown_system_prompt;
     call_human :=
       "Here is the data for the page:" ++ Py.nl ++ Py.nl
       ++ formatted_data |}.

Definition html_call (markdown_content : string)
    (current_page total_pages : Z) : model_call :=
  {| call_model := gemini_2_0_flash;
     call_temperature := 0;
     call_system :=
       HtmlGenerator.html_system_prompt current_page total_pages;
     call_human := "CONTENT:" ++ Py.nl ++ Py.nl ++ markdown_content |}.

(** The spans of the text blocks (type 0) of a page, in reading order. *)
Definition text_spans (blocks : list Fitz.Block) : list Fitz.Span :=
  flat_map
    (fun block =>
       if Fitz.type block =? 0
       then flat_map Fitz.spans (Fitz.lines block)
       else [])
    blocks.

Module Samples.

Definition span : Fitz.Span :=
  {| Fitz.span_text := "Hello";
     Fitz.span_bbox := [1 # 2; 3 # 2; 5 # 2; 7 # 2]%Q;
     Fitz.span_font := "Helvetica";
     Fitz.span_size := (23 # 2)%Q;
     Fitz.span_color := 0 |}.

Definition block (s : string) : TextBlock.t :=
  {| TextBlock.text := s;
     TextBlock.bbox := [1 # 2; 3 # 2; 5 # 2; 7 # 2]%Q;
     TextBlock.font := "Helvetica";
     TextBlock.size := 12;
     TextBlock.color := 0 |}.

(** A text of 15150 characters. *)
Definition long_text : string :=
  string_of_list_ascii (repeat "a"%char (150 * 101)).

(** The character U+6587, three bytes in UTF-8, and a text of 5000 of
    them: 15000 bytes. *)
Definition wen : list ascii := ["230"; "150"; "135"]%char.

Definition wen_text : string :=
  string_of_list_ascii (List.concat (repeat wen (50 * 100))).

(** A model that answers every request with the same text. *)
Definition echo_model : trace -> model_call -> result string :=
  fun _ _ => Ok "generated".

(** A one-page document; page 0 shows one text span and lists the image
    with cross-reference 7 twice. *)
Definition one_page_doc : Fitz.Document :=
  {| Fitz.name := "/tmp/upload.pdf";
     Fitz.is_closed := false;
     Fitz.is_encrypted := false;
     Fitz.authenticate := fun _ => 1;
     Fitz.num_pages := 1;
     Fitz.page_blocks :=
       fun _ => [ {| Fitz.type := 0;
                     Fitz.lines := [ {| Fitz.spans := [span] |} ] |} ];
     Fitz.page_image_xrefs := fun _ => [7; 7];
     Fitz.image_of_xref :=
       fun _ => {| Fitz.image := [x89; x50]; Fitz.ext := "png" |} |}.

(** A one-page document without images. *)
Definition text_only_doc : Fitz.Document :=
  {| Fitz.name := "/tmp/upload.pdf";
     Fitz.is_closed := false;
     Fitz.is_encrypted := false;
     Fitz.authenticate := fun _ => 1;
     Fitz.num_pages := 1;
     Fitz.page_blocks := fun _ => [];
     Fitz.page_image_xrefs := fun _ => [];
     Fitz.image_of_xref :=
       fun _ => {| Fitz.image := []; Fitz.ext := "png" |} |}.

(** A document without pages. *)
Definition empty_doc : Fitz.Document :=
  {| Fitz.name := "/tmp/upload.pdf";
     Fitz.is_closed := false;
     Fitz.is_encrypted := false;
     Fitz.authenticate := fun _ => 1;
     Fitz.num_pages := 0;
     Fitz.page_blocks := fun _ => [];
     Fitz.page_image_xrefs := fun _ => [];
     Fitz.image_of_xref :=
       fun _ => {| Fitz.image := []; Fitz.ext := "png" |} |}.

(** A document of two pages: an image block and a text block with one
    span on page 0, one image on each page. *)
Definition two_pages_doc : Fitz.Document :=
  {| Fitz.name := "/tmp/upload.pdf";
     Fitz.is_closed := false;
     Fitz.is_encrypted := false;
     Fitz.authenticate := fun _ => 1;
     Fitz.num_pages := 2;
     Fitz.page_blocks :=
       fun n => if n =? 0
                then [ {| Fitz.type := 1; Fitz.lines := [] |};
                       {| Fitz.type := 0;
                          Fitz.lines := [ {| Fitz.spans := [span] |} ] |} ]
                else [];
     Fitz.page_image_xrefs := fun n => if n =? 0 then [7] else [9];
     Fitz.image_of_xref :=
       fun x => if x =? 7
                then {| Fitz.image := [x89; x50]; Fitz.ext := "png" |}
                else {| Fitz.image := [xff; xd8]; Fitz.ext := "jpeg" |} |}.

(** An encrypted document that accepts the password ["secret"] only. *)
Definition encrypted_doc : Fitz.Document :=
  {| Fitz.name := "/tmp/upload.pdf";
     Fitz.is_closed := false;
     Fitz.is_encrypted := true;
     Fitz.authenticate :=
       fun pw => if String.eqb pw "secret" then 2 else 0;
     Fitz.num_pages := 1;
     Fitz.page_blocks := fun _ => [];
     Fitz.page_image_xrefs := fun _ => [];
     Fitz.image_of_xref :=
       fun _ => {| Fitz.image := []; Fitz.ext := "png" |} |}.

(** The text of a document of two pages, and two images with names of
    their own. *)
Definition two_pages_text : list PdfParser.PageText.t :=
  [ {| PdfParser.PageText.page_number := 0;
       PdfParser.PageText.blocks := [block "First page"] |};
    {| PdfParser.PageText.page_number := 1;
       PdfParser.PageText.blocks := [block "Second page"] |} ].

Definition two_images : list Image.t :=
  [ {| Image.name := "image_0_7.png"; Image.bytes := [x89; x50];
       Image.page := 0 |};
    {| Image.name := "image_1_9.jpeg"; Image.bytes := [xff; xd8];
       Image.page := 1 |} ].

Definition pdf_upload (content : list byte) : Main.UploadFile :=
  {| Main.filename := Some "report.pdf";
     Main.content_type := Some "application/pdf";
     Main.body := content |}.

Definition text_upload : Main.UploadFile :=
  {| Main.filename := Some "notes.txt";
     Main.content_type := Some "text/plain";
     Main.body := [x68; x69] |}.

(** An upload of 50 MiB and one byte. *)
Definition oversized_upload : Main.UploadFile :=
  pdf_upload (repeat x00 (Z.to_nat (Main.MAX_FILE_SIZE + 1))).

(** [os.path.splitext(name)[0]] on the sample names. *)
Definition splitext_root (n : string) : string :=
  if String.eqb n "report.pdf" then "report" else n.

End Samples.

(* ================================================================== *)
(** ** Strings *)

Lemma append_assoc (a b c : string) : (a ++ b) ++ c = a ++ (b ++ c).
Proof.
  induction a as [|x a IH]; simpl; [reflexivity | now rewrite IH].
Qed.

Lemma append_empty_r (a : string) : a ++ EmptyString = a.
Proof.
  induction a as [|x a IH]; simpl; [reflexivity | now rewrite IH].
Qed.

Lemma append_inv_head (a b c : string) : a ++ b = a ++ c -> b = c.
Proof.
  induction a as [|x a IH]; simpl; intros H; [exact H|].
  injection H as H. auto.
Qed.

(** The characters of a concatenation are those of its parts. *)
Lemma code_points_append (a b : string) :
  Py.code_points (a ++ b) = (Py.code_points a + Py.code_points b)%nat.
Proof.
  induction a as [|x a IH]; cbn [append Py.code_points]; [reflexivity|].
  rewrite IH. lia.
Qed.

Lemma latin1_encodable_append (a b : string) :
  Py.latin1_encodable (a ++ b)
  = Py.latin1_encodable a && Py.latin1_encodable b.
Proof.
  induction a as [|x a IH]; cbn [append Py.latin1_encodable];
    [reflexivity|].
  now rewrite IH, andb_assoc.
Qed.

(** The header of the download can be encoded when the root of the file
    name can. *)
Lemma content_disposition_encodable (root : string) :
  Py.latin1_encodable root = true ->
  Py.latin1_encodable
    ("attachment; filename=" ++ "converted_" ++ root ++ ".zip") = true.
Proof.
  intros Hroot. rewrite !latin1_encodable_append, Hroot. reflexivity.
Qed.

Lemma has_char_append (c : ascii) (a b : string) :
  has_char c (a ++ b) = has_char c a || has_char c b.
Proof.
  induction a as [|x a IH]; simpl; [reflexivity|].
  now rewrite IH, orb_assoc.
Qed.

Lemma occurs_in_refl (s : string) : Py.occurs_in s s.
Proof.
  exists EmptyString, EmptyString. simpl. now rewrite append_empty_r.
Qed.

Lemma occurs_in_trans (a b c : string) :
  Py.occurs_in a b -> Py.occurs_in b c -> Py.occurs_in a c.
Proof.
  intros (p & q & ->) (p' & q' & ->).
  exists (p' ++ p), (q ++ q').
  now rewrite !append_assoc.
Qed.

Lemma occurs_in_append_l (a s t : string) :
  Py.occurs_in a s -> Py.occurs_in a (s ++ t).
Proof.
  intros (p & q & ->). exists p, (q ++ t). now rewrite !append_assoc.
Qed.

Lemma occurs_in_append_r (a s t : string) :
  Py.occurs_in a t -> Py.occurs_in a (s ++ t).
Proof.
  intros (p & q & ->). exists (s ++ p), q. now rewrite !append_assoc.
Qed.

(** [sep.join] on a non-empty list. *)
Lemma join_cons (sep x : string) (l : list string) :
  Py.join sep (x :: l) =
  match l with [] => x | _ :: _ => x ++ sep ++ Py.join sep l end.
Proof. destruct l; reflexivity. Qed.

(** Every part occurs in the joined string. *)
Lemma occurs_in_join (sep x : string) (l : list string) :
  In x l -> Py.occurs_in x (Py.join sep l).
Proof.
  induction l as [|y l IH]; intros Hin; [contradiction|].
  rewrite join_cons. destruct Hin as [-> | Hin].
  - destruct l; [apply occurs_in_refl|].
    apply occurs_in_append_l, occurs_in_refl.
  - destruct l as [|z l]; [contradiction|].
    apply occurs_in_append_r, occurs_in_append_r. auto.
Qed.

(** A prefix brings its characters with it. *)
Lemma prefix_has_char (c : ascii) (n h : string) :
  String.prefix n h = true -> has_char c n = true -> has_char c h = true.
Proof.
  revert h. induction n as [|x n IH]; intros h Hp Hc; simpl in Hc;
    [discriminate Hc|].
  destruct h as [|y h]; simpl in Hp; [discriminate Hp|]. simpl.
  destruct (Ascii.ascii_dec x y) as [->|Hne]; [|discriminate Hp].
  apply orb_true_iff in Hc. apply orb_true_iff.
  destruct Hc as [Hc|Hc]; [now left | right; eauto].
Qed.

Lemma contains_has_char (c : ascii) (h n : string) :
  Py.contains h n = true -> has_char c n = true -> has_char c h = true.
Proof.
  induction h as [|y h IH]; cbn [Py.contains].
  - destruct (String.prefix n EmptyString) eqn:Hp; intros Hc Hn;
      [|discriminate Hc].
    now apply (prefix_has_char c) in Hp.
  - destruct (String.prefix n (String y h)) eqn:Hp; intros Hc Hn.
    + now apply (prefix_has_char c) in Hp.
    + cbn [has_char]. apply orb_true_iff. right. auto.
Qed.

(** A string that lacks one character of [n] does not contain [n]. *)
Lemma lacks_char_not_contains (c : ascii) (h n : string) :
  has_char c n = true -> has_char c h = false -> Py.contains h n = false.
Proof.
  intros Hn Hh. destruct (Py.contains h n) eqn:Hc; [|reflexivity].
  now rewrite (contains_has_char c h n Hc Hn) in Hh.
Qed.

(** The decimal notation of an integer uses digits and the sign only. *)
Lemma has_char_string_of_uint (c : ascii) (d : Decimal.uint) :
  has_char c "0123456789" = false ->
  has_char c (NilEmpty.string_of_uint d) = false.
Proof.
  intros H. cbn [has_char] in H.
  repeat (apply orb_false_iff in H; destruct H as [? H]).
  induction d; cbn [NilEmpty.string_of_uint has_char]; try reflexivity;
    apply orb_false_iff; split; assumption.
Qed.

Lemma has_char_str_int (c : ascii) (n : Z) :
  has_char c "-0123456789" = false -> has_char c (Py.str_int n) = false.
Proof.
  intros H. cbn [has_char] in H.
  apply orb_false_iff in H. destruct H as [Hm H].
  assert (Hd : forall d, has_char c (NilZero.string_of_uint d) = false).
  { intros d. pose proof (has_char_string_of_uint c d H) as Hu.
    destruct d; try exact Hu.
    cbn [NilZero.string_of_uint has_char] in *.
    repeat (apply orb_false_iff in H; destruct H as [? H]).
    apply orb_false_iff; split; [assumption | reflexivity]. }
  unfold Py.str_int, NilZero.string_of_int.
  destruct (Z.to_int n) as [d|d]; [apply Hd|].
  cbn [has_char]. apply orb_false_iff. split; [assumption | apply Hd].
Qed.

(** The decimal notation determines the integer. *)
Lemma str_int_inj (n m : Z) : Py.str_int n = Py.str_int m -> n = m.
Proof.
  unfold Py.str_int. intros H.
  assert (Hn : forall z, NilZero.int_of_string
                           (NilZero.string_of_int (Z.to_int z))
                         = Some (Z.to_int z)).
  { intros z. apply NilZero.isi; destruct z; cbn; try discriminate;
      intros E; injection E as E;
      exact (DecimalPos.Unsigned.to_uint_nonnil _ E). }
  pose proof (Hn n) as H1. rewrite H, Hn in H1.
  injection H1 as H1. symmetry. now apply DecimalZ.to_int_inj.
Qed.

(* ================================================================== *)
(** ** html_generator.py: the description given to the model *)

Lemma in_enumerate_from {A} (x : A) (l : list A) (start : Z) :
  In x l -> exists i, In (i, x) (Py.enumerate_from start l).
Proof.
  revert start. induction l as [|y l IH]; intros start Hin; [contradiction|].
  destruct Hin as [-> | Hin].
  - exists start. now left.
  - destruct (IH (start + 1) Hin) as [i Hi]. exists i. now right.
Qed.

Lemma table_str_in_formatted_strings blocks images tables table :
  In table tables ->
  In (HtmlGenerator.table_str table)
     (HtmlGenerator.formatted_strings blocks images tables).
Proof.
  intros Hin. unfold HtmlGenerator.formatted_strings.
  destruct tables as [|t0 tables]; [contradiction|].
  cbn [Py.truthy]. apply in_or_app. right. right.
  destruct (in_enumerate_from table (t0 :: tables) 0 Hin) as [i Hi].
  apply in_flat_map. exists (i, table). split; [exact Hi|].
  right. now left.
Qed.

(** C9: in [format_data_for_llm] every table cell goes through [str]
    before the row is joined with [" | "]: a [None] cell is rendered as
    the text [None], an empty-string cell as an empty field, and the row
    so rendered is part of the description given to the model. *)
Theorem table_cells_rendered_through_str :
  forall blocks images tables table row,
    In table tables ->
    In row table ->
    HtmlGenerator.str_cell None = "None"
    /\ HtmlGenerator.str_cell (Some EmptyString) = EmptyString
    /\ Py.occurs_in
         (Py.join " | " (map HtmlGenerator.str_cell row))
         (HtmlGenerator.format_data_for_llm blocks images tables).
Proof.
  intros blocks images tables table row Ht Hr.
  split; [reflexivity|]. split; [reflexivity|].
  apply occurs_in_trans with (b := HtmlGenerator.table_str table).
  - apply occurs_in_join.
    exact (in_map HtmlGenerator.row_str table row Hr).
  - apply occurs_in_join. now apply table_str_in_formatted_strings.
Qed.

(** A row with a [None] cell, an empty cell and a text cell. *)
Lemma table_cells_rendered_through_str_witness :
  Py.occurs_in "None |  | a"
    (HtmlGenerator.format_data_for_llm [] []
       [ [ [None; Some EmptyString; Some "a"] ] ]).
Proof.
  apply (table_cells_rendered_through_str [] []
           [ [ [None; Some EmptyString; Some "a"] ] ]
           [ [None; Some EmptyString; Some "a"] ]
           [None; Some EmptyString; Some "a"]);
    simpl; auto.
Defined.

(* ================================================================== *)
(** ** html_generator.py: the size budget of the Markdown stage *)

Lemma join_text_dump (x : string) (blocks : list TextBlock.t) :
  Py.join (Py.nl ++ Py.nl) (x :: map TextBlock.text blocks)
  = x ++ text_dump blocks.
Proof.
  revert x. induction blocks as [|b blocks IH]; intros x.
  - cbn. now rewrite append_empty_r.
  - cbn [map]. rewrite join_cons. rewrite IH. reflexivity.
Qed.

Lemma fallback_markdown_shape (blocks : list TextBlock.t) :
  Py.join (Py.nl ++ Py.nl) (HtmlGenerator.fallback_md blocks)
  = HtmlGenerator.fallback_heading ++ Py.nl ++ Py.nl
    ++ "The following is a raw text dump of the page content. Formatting has been simplified to avoid exceeding AI processing limits."
    ++ Py.nl ++ Py.nl
    ++ Py.nl ++ "---" ++ Py.nl
    ++ text_dump blocks.
Proof.
  unfold HtmlGenerator.fallback_md. cbn [List.app].
  rewrite join_cons, join_cons, join_text_dump.
  rewrite !append_assoc. reflexivity.
Qed.

(** C1: [generate_markdown_from_data] renders the page with
    [format_data_for_llm]; when the description has at most 15000
    characters ([len] of the text, whatever the bytes of its encoding) it
    issues exactly one model call, on that description, and
    returns what the call returns; when it has more, it issues no call and
    returns the fallback document: the heading, verbatim, the notice and
    the rule, then the texts of the page's blocks in their order. *)
Theorem generate_markdown_from_data_budget :
  forall model blocks images tables t,
    let formatted_data :=
      HtmlGenerator.format_data_for_llm blocks images tables in
    (Py.len formatted_data <= HtmlGenerator.MAX_CHARS ->
     exists c,
       HtmlGenerator.generate_markdown_from_data model blocks images tables t
       = (model t c, (t ++ [ModelCall c])%list)
       /\ call_human c
          = "Here is the data for the page:" ++ Py.nl ++ Py.nl
            ++ formatted_data
       /\ model_calls (t ++ [ModelCall c])%list
          = (model_calls t ++ [ModelCall c])%list)
    /\
    (Py.len formatted_data > HtmlGenerator.MAX_CHARS ->
     HtmlGenerator.generate_markdown_from_data model blocks images tables t
     = (Ok ("# Page Content Too Large for Detailed Analysis"
            ++ Py.nl ++ Py.nl
            ++ "The following is a raw text dump of the page content. Formatting has been simplified to avoid exceeding AI processing limits."
            ++ Py.nl ++ Py.nl
            ++ Py.nl ++ "---" ++ Py.nl
            ++ text_dump blocks),
        t)).
Proof.
  intros model blocks images tables t formatted_data.
  unfold HtmlGenerator.generate_markdown_from_data.
  fold formatted_data. split; intros Hlen.
  - replace (Py.len formatted_data >? HtmlGenerator.MAX_CHARS) with false
      by (symmetry; rewrite Z.gtb_ltb; apply Z.ltb_ge; exact Hlen).
    eexists. split; [reflexivity|]. split; [reflexivity|].
    unfold model_calls. rewrite filter_app. reflexivity.
  - replace (Py.len formatted_data >? HtmlGenerator.MAX_CHARS) with true
      by (symmetry; rewrite Z.gtb_ltb; apply Z.ltb_lt; lia).
    unfold ret. rewrite fallback_markdown_shape. reflexivity.
Qed.

(** A page with one short text, a page with one text of 15150
    characters, and a page with one text of 5000 characters that takes
    15000 bytes: its description has 5079 characters, and is sent. *)
Lemma generate_markdown_from_data_budget_witness :
  (exists c,
      HtmlGenerator.generate_markdown_from_data Samples.echo_model
        [Samples.block "Hello"] [] [] []
      = (Ok "generated", [ModelCall c]))
  /\ fst (HtmlGenerator.generate_markdown_from_data Samples.echo_model
            [Samples.block "First"; Samples.block Samples.long_text] [] [] [])
     = Ok ("# Page Content Too Large for Detailed Analysis"
           ++ Py.nl ++ Py.nl
           ++ "The following is a raw text dump of the page content. Formatting has been simplified to avoid exceeding AI processing limits."
           ++ Py.nl ++ Py.nl ++ Py.nl ++ "---" ++ Py.nl
           ++ Py.nl ++ Py.nl ++ "First"
           ++ Py.nl ++ Py.nl ++ Samples.long_text)
  /\ Py.len (HtmlGenerator.format_data_for_llm
               [Samples.block Samples.wen_text] [] []) = 5079
  /\ (exists c,
         HtmlGenerator.generate_markdown_from_data Samples.echo_model
           [Samples.block Samples.wen_text] [] [] []
         = (Ok "generated", [ModelCall c])).
Proof.
  split; [|split; [|split]].
  - destruct (proj1 (generate_markdown_from_data_budget Samples.echo_model
                       [Samples.block "Hello"] [] [] []))
      as (c & Hrun & _).
    + vm_compute. discriminate.
    + exists c. exact Hrun.
  - rewrite (proj2 (generate_markdown_from_data_budget Samples.echo_model
                      [Samples.block "First"; Samples.block Samples.long_text]
                      [] [] [])).
    + cbn [fst text_dump Samples.block TextBlock.text].
      now rewrite append_empty_r.
    + vm_compute. reflexivity.
  - vm_compute. reflexivity.
  - destruct (proj1 (generate_markdown_from_data_budget Samples.echo_model
                       [Samples.block Samples.wen_text] [] [] []))
      as (c & Hrun & _).
    + vm_compute. discriminate.
    + exists c. exact Hrun.
Defined.

(* ================================================================== *)
(** ** html_generator.py: the navigation of the HTML stage *)

Lemma nav_html_in_system_prompt (p N : Z) :
  1 < N ->
  Py.occurs_in (HtmlGenerator.nav_html p N)
               (HtmlGenerator.html_system_prompt p N).
Proof.
  intros HN. unfold HtmlGenerator.html_system_prompt.
  apply occurs_in_append_r, occurs_in_append_l.
  unfold HtmlGenerator.nav_instructions.
  replace (N >? 1) with true by (symmetry; apply Z.gtb_lt; lia).
  apply occurs_in_append_r, occurs_in_refl.
Qed.

Lemma first_page_footer_lacks_u (N : Z) :
  1 < N -> has_char "u" (HtmlGenerator.nav_html 1 N) = false.
Proof.
  intros HN. unfold HtmlGenerator.nav_html, HtmlGenerator.nav_links.
  replace (1 <? N) with true by (symmetry; apply Z.ltb_lt; lia).
  cbn [Z.gtb Z.compare List.app Py.join String.concat].
  rewrite !has_char_append.
  rewrite !has_char_str_int by reflexivity.
  reflexivity.
Qed.

Lemma last_page_footer_lacks_x (N : Z) :
  1 < N -> has_char "x" (HtmlGenerator.nav_html N N) = false.
Proof.
  intros HN. unfold HtmlGenerator.nav_html, HtmlGenerator.nav_links.
  replace (N >? 1) with true by (symmetry; apply Z.gtb_lt; lia).
  rewrite Z.ltb_irrefl.
  cbn [List.app Py.join String.concat].
  unfold HtmlGenerator.previous_link.
  rewrite !has_char_append.
  rewrite !has_char_str_int by reflexivity.
  reflexivity.
Qed.

(** C3: [generate_html_from_markdown] issues one call whose system
    prompt carries the navigation.  With one page in all, the prompt
    holds no footer markup.  On page 1 of several the footer has the
    Next link, to [page-2.html], and no Previous link; on the last page
    of several it has the Previous link, to the page before, and no Next
    link; on a page in between it has both, Previous first. *)
Theorem navigation_by_position :
  forall model markdown_content p N t,
    HtmlGenerator.generate_html_from_markdown model markdown_content p N t
    = (let c := {| call_model := gemini_2_0_flash;
                   call_temperature := 0;
                   call_system := HtmlGenerator.html_system_prompt p N;
                   call_human :=
                     "CONTENT:" ++ Py.nl ++ Py.nl ++ markdown_content |} in
       (model t c, (t ++ [ModelCall c])%list))
    /\ (N = 1 ->
        HtmlGenerator.nav_instructions p N = EmptyString
        /\ Py.contains (HtmlGenerator.html_system_prompt p N) "<footer"
           = false
        /\ Py.contains (HtmlGenerator.html_system_prompt p N) "<nav"
           = false
        /\ Py.contains (HtmlGenerator.html_system_prompt p N) "<a href"
           = false)
    /\ (p = 1 -> 1 < N ->
        HtmlGenerator.nav_html p N
        = "<footer><nav><a href=" ++ Py.dq ++ "page-2.html" ++ Py.dq
          ++ ">Next</a></nav><p>Page 1 of " ++ Py.str_int N
          ++ "</p></footer>"
        /\ Py.contains (HtmlGenerator.nav_html p N) "Previous" = false
        /\ Py.occurs_in (HtmlGenerator.nav_html p N)
                        (HtmlGenerator.html_system_prompt p N))
    /\ (p = N -> 1 < N ->
        HtmlGenerator.nav_html p N
        = "<footer><nav><a href=" ++ Py.dq ++ "page-" ++ Py.str_int (N - 1)
          ++ ".html" ++ Py.dq ++ ">Previous</a></nav><p>Page "
          ++ Py.str_int N ++ " of " ++ Py.str_int N ++ "</p></footer>"
        /\ Py.contains (HtmlGenerator.nav_html p N) "Next" = false
        /\ Py.occurs_in (HtmlGenerator.nav_html p N)
                        (HtmlGenerator.html_system_prompt p N))
    /\ (1 < p -> p < N ->
        HtmlGenerator.nav_html p N
        = "<footer><nav><a href=" ++ Py.dq ++ "page-" ++ Py.str_int (p - 1)
          ++ ".html" ++ Py.dq ++ ">Previous</a> | <a href=" ++ Py.dq
          ++ "page-" ++ Py.str_int (p + 1) ++ ".html" ++ Py.dq
          ++ ">Next</a></nav><p>Page " ++ Py.str_int p ++ " of "
          ++ Py.str_int N ++ "</p></footer>"
        /\ Py.occurs_in (HtmlGenerator.nav_html p N)
                        (HtmlGenerator.html_system_prompt p N)).
Proof.
  intros model markdown_content p N t.
  split; [reflexivity|]. split; [|split; [|split]].
  - intros ->. repeat split; vm_compute; reflexivity.
  - intros -> HN. split; [|split].
    + unfold HtmlGenerator.nav_html, HtmlGenerator.nav_links.
      replace (1 <? N) with true by (symmetry; apply Z.ltb_lt; lia).
      reflexivity.
    + apply (lacks_char_not_contains "u"); [reflexivity|].
      now apply first_page_footer_lacks_u.
    + now apply nav_html_in_system_prompt.
  - intros -> HN. split; [|split].
    + unfold HtmlGenerator.nav_html, HtmlGenerator.nav_links.
      replace (N >? 1) with true by (symmetry; apply Z.gtb_lt; lia).
      rewrite Z.ltb_irrefl.
      cbn [List.app Py.join String.concat].
      unfold HtmlGenerator.previous_link.
      rewrite !append_assoc. reflexivity.
    + apply (lacks_char_not_contains "x"); [reflexivity|].
      now apply last_page_footer_lacks_x.
    + now apply nav_html_in_system_prompt.
  - intros Hp HN. split.
    + unfold HtmlGenerator.nav_html, HtmlGenerator.nav_links.
      replace (p >? 1) with true by (symmetry; apply Z.gtb_lt; lia).
      replace (p <? N) with true by (symmetry; apply Z.ltb_lt; lia).
      cbn [List.app Py.join String.concat].
      unfold HtmlGenerator.previous_link, HtmlGenerator.next_link.
      rewrite !append_assoc. reflexivity.
    + apply nav_html_in_system_prompt. lia.
Qed.

(** A single page, and the first, the last and the middle page of
    three. *)
Lemma navigation_by_position_witness :
  HtmlGenerator.nav_instructions 1 1 = EmptyString
  /\ Py.contains (HtmlGenerator.nav_html 1 3) "Previous" = false
  /\ Py.contains (HtmlGenerator.nav_html 3 3) "Next" = false
  /\ Py.occurs_in (HtmlGenerator.nav_html 2 3)
                  (HtmlGenerator.html_system_prompt 2 3).
Proof.
  split; [|split; [|split]].
  - apply (navigation_by_position Samples.echo_model "# Title" 1 1 []).
    reflexivity.
  - apply (navigation_by_position Samples.echo_model "# Title" 1 3 []);
      [reflexivity | lia].
  - apply (navigation_by_position Samples.echo_model "# Title" 3 3 []);
      [reflexivity | lia].
  - apply (navigation_by_position Samples.echo_model "# Title" 2 3 []); lia.
Defined.

(* ================================================================== *)
(** ** main.py: the per-page join *)

(** Looking a page up in the sparse list built from the pages numbered
    from [start]. *)
Lemma page_tables_sparse (pages : list (list Table)) (start k : Z) :
  Main.page_tables
    (flat_map PdfParser.tables_entry (Py.enumerate_from start pages)) k
  = if k <? start then [] else nth (Z.to_nat (k - start)) pages [].
Proof.
  revert start. induction pages as [|tables pages IH]; intros start.
  - cbn. destruct (k <? start); [reflexivity|].
    now destruct (Z.to_nat (k - start)).
  - cbn [Py.enumerate_from flat_map]. unfold Main.page_tables in *.
    unfold PdfParser.tables_entry at 1. cbn [fst snd].
    destruct (Z.ltb_spec k start) as [Hlt|Hge].
    + assert (Hrest : (k <? start + 1) = true) by (apply Z.ltb_lt; lia).
      specialize (IH (start + 1)). rewrite Hrest in IH.
      destruct tables as [|tb tables]; cbn [Py.truthy List.app]; [exact IH|].
      cbn [find PageTables.page_number].
      replace (start =? k) with false by (symmetry; apply Z.eqb_neq; lia).
      exact IH.
    + destruct (Z.eq_dec k start) as [->|Hne].
      * rewrite Z.sub_diag. cbn [Z.to_nat nth].
        destruct tables as [|tb tables]; cbn [Py.truthy List.app].
        -- specialize (IH (start + 1)).
           replace (start <? start + 1) with true in IH
             by (symmetry; apply Z.ltb_lt; lia).
           exact IH.
        -- cbn [find PageTables.page_number]. rewrite Z.eqb_refl.
           reflexivity.
      * assert (Hrest : (k <? start + 1) = false) by (apply Z.ltb_ge; lia).
        specialize (IH (start + 1)). rewrite Hrest in IH.
        replace (Z.to_nat (k - start))
          with (S (Z.to_nat (k - (start + 1)))) by lia.
        cbn [nth].
        destruct tables as [|tb tables]; cbn [Py.truthy List.app];
          [exact IH|].
        cbn [find PageTables.page_number].
        replace (start =? k) with false by (symmetry; apply Z.eqb_neq; lia).
        exact IH.
Qed.

(** Every entry of the sparse list carries at least one table. *)
Lemma tables_entry_nonempty (pages : list (list Table)) (start : Z)
      (e : PageTables.t) :
  In e (flat_map PdfParser.tables_entry (Py.enumerate_from start pages)) ->
  PageTables.tables e <> [].
Proof.
  revert start. induction pages as [|tables pages IH]; intros start Hin;
    [contradiction|].
  cbn [Py.enumerate_from flat_map] in Hin. apply in_app_or in Hin.
  destruct Hin as [Hin|Hin]; [|eauto].
  unfold PdfParser.tables_entry in Hin. cbn [fst snd] in Hin.
  destruct tables as [|tb tables]; [contradiction|].
  destruct Hin as [<-|[]]. discriminate.
Qed.

(** C4: the join of a page with the sparse result of the table
    extractor is total and stable.  The extractor keeps the pages with at
    least one table; looking page [page_num] up in its result gives the
    tables found on that page, the empty list when there are none (no
    error case exists); the images of the page are those whose [page]
    field equals [page_num]; a table found on page [k] only is in the
    bundle of page [k] and in no other; and the body of the loop hands
    the two stages of page [page_num] exactly that bundle: the text
    blocks of entry [page_num], the images whose [page] is [page_num] and
    the tables found on page [page_num]. *)
Theorem page_join_total_and_stable :
  forall plumber_pages file_path pages model N all_text_data
         (all_image_data : list Image.t) t,
    plumber_pages file_path = inl pages ->
    exists all_table_data,
      PdfParser.extract_tables_with_pdfplumber plumber_pages file_path t
      = (Ok all_table_data, (t ++ [OpenPlumber file_path])%list)
      /\ (forall e, In e all_table_data -> PageTables.tables e <> [])
      /\ (forall page_num,
             Main.page_tables all_table_data page_num
             = tables_on_page pages page_num)
      /\ (forall page_num,
             find (fun e => PageTables.page_number e =? page_num)
                  all_table_data = None ->
             Main.page_tables all_table_data page_num = [])
      /\ (forall page_num img,
             In img (Main.page_image_data all_image_data page_num)
             <-> In img all_image_data /\ Image.page img = page_num)
      /\ (forall table k,
             In table (tables_on_page pages k) ->
             (forall j, j <> k -> ~ In table (tables_on_page pages j)) ->
             In table (Main.page_tables all_table_data k)
             /\ forall j, j <> k ->
                          ~ In table (Main.page_tables all_table_data j))
      /\ (forall zip_file page_num t',
             Main.convert_page model N all_text_data all_image_data
               all_table_data zip_file page_num t'
             = match Main.index all_text_data page_num with
               | Ok entry =>
                   synthesize_page model N zip_file page_num
                     (PdfParser.PageText.blocks entry)
                     (filter (fun img => Image.page img =? page_num)
                             all_image_data)
                     (tables_on_page pages page_num) t'
               | Raise e => (Raise e, t')
               end).
Proof.
  intros plumber_pages file_path pages model N all_text_data all_image_data
         t Hpages.
  exists (flat_map PdfParser.tables_entry (Py.enumerate pages)).
  assert (Hlookup : forall page_num,
             Main.page_tables
               (flat_map PdfParser.tables_entry (Py.enumerate pages)) page_num
             = tables_on_page pages page_num).
  { intros page_num. unfold Py.enumerate. rewrite page_tables_sparse.
    unfold tables_on_page. now rewrite Z.sub_0_r. }
  split; [|split; [|split; [|split; [|split; [|split]]]]].
  - unfold PdfParser.extract_tables_with_pdfplumber, bind, emit, lift, ret.
    rewrite Hpages. reflexivity.
  - intros e. apply tables_entry_nonempty.
  - exact Hlookup.
  - intros page_num Hnone. unfold Main.page_tables. now rewrite Hnone.
  - intros page_num img. unfold Main.page_image_data.
    rewrite filter_In, Z.eqb_eq. reflexivity.
  - intros table k Hk Honly. split.
    + now rewrite Hlookup.
    + intros j Hj. rewrite Hlookup. now apply Honly.
  - intros zip_file page_num t'.
    unfold Main.convert_page, synthesize_page, bind, lift.
    destruct (Main.index all_text_data page_num) as [entry|e];
      [|reflexivity].
    rewrite Hlookup. reflexivity.
Qed.

(** A document of two pages with one table, on page 1: the stages of
    page 0 get no table, those of page 1 get that table, and the
    description sent for page 1 shows it. *)
Lemma page_join_total_and_stable_witness :
  exists all_table_data,
    PdfParser.extract_tables_with_pdfplumber
      (fun _ => inl [ []; [ [ [Some "a"; None] ] ] ])
      "/tmp/upload.pdf" []
    = (Ok all_table_data, [OpenPlumber "/tmp/upload.pdf"])
    /\ Main.page_tables all_table_data 0 = []
    /\ Main.page_tables all_table_data 1 = [ [ [Some "a"; None] ] ]
    /\ Main.convert_page Samples.echo_model 2 Samples.two_pages_text
         Samples.two_images all_table_data [] 0 []
       = synthesize_page Samples.echo_model 2 [] 0
           [Samples.block "First page"]
           [ {| Image.name := "image_0_7.png"; Image.bytes := [x89; x50];
                Image.page := 0 |} ]
           [] []
    /\ Main.convert_page Samples.echo_model 2 Samples.two_pages_text
         Samples.two_images all_table_data [] 1 []
       = synthesize_page Samples.echo_model 2 [] 1
           [Samples.block "Second page"]
           [ {| Image.name := "image_1_9.jpeg"; Image.bytes := [xff; xd8];
                Image.page := 1 |} ]
           [ [ [Some "a"; None] ] ] [].
Proof.
  destruct (page_join_total_and_stable
              (fun _ => inl [ []; [ [ [Some "a"; None] ] ] ])
              "/tmp/upload.pdf"
              [ []; [ [ [Some "a"; None] ] ] ]
              Samples.echo_model 2 Samples.two_pages_text
              Samples.two_images [] eq_refl)
    as (all_table_data & Hrun & _ & Hlookup & _ & _ & _ & Hbody).
  exists all_table_data. split; [exact Hrun|].
  rewrite !Hlookup, !Hbody. repeat split.
Defined.

(* ================================================================== *)
(** ** pdf_parser.py: opening a document *)

(** C10: when the document is encrypted and the password given (the
    empty one when none is given) is refused, [open_pdf_from_path] closes
    the handle and returns that same, closed, handle; what the caller
    does next with it ([page_count], text and image extraction) meets a
    closed document. *)
Theorem open_pdf_from_path_returns_closed_handle :
  forall fitz_open file_path password doc t,
    fitz_open file_path = inl doc ->
    Fitz.is_encrypted doc = true ->
    Fitz.authenticate doc (PdfParser.password_or_empty password) = 0 ->
    PdfParser.open_pdf_from_path fitz_open file_path password t
    = (Ok (Fitz.close doc),
       (t ++ [OpenDocument file_path; CloseDocument])%list)
    /\ Fitz.is_closed (Fitz.close doc) = true
    /\ Fitz.page_count (Fitz.close doc)
       = Raise (LibraryError "document closed")
    /\ (forall t',
           PdfParser.extract_text_with_positions (Fitz.close doc) t'
           = (Raise (LibraryError "document closed"), t'))
    /\ (forall pdfimages t',
           PdfParser.extract_images pdfimages (Fitz.close doc) t'
           = (Raise (LibraryError "document closed"), t')).
Proof.
  intros fitz_open file_path password doc t Hopen Henc Hauth.
  split; [|repeat split].
  unfold PdfParser.open_pdf_from_path, try_except, bind, emit, lift, ret.
  rewrite Hopen. cbn [of_answer]. rewrite Henc, Hauth. cbn.
  now rewrite <- app_assoc.
Qed.

(** The sample encrypted document, opened without a password. *)
Lemma open_pdf_from_path_returns_closed_handle_witness :
  PdfParser.open_pdf_from_path (fun _ => inl Samples.encrypted_doc)
    "/tmp/upload.pdf" None []
  = (Ok (Fitz.close Samples.encrypted_doc),
     [OpenDocument "/tmp/upload.pdf"; CloseDocument])
  /\ Fitz.is_closed (Fitz.close Samples.encrypted_doc) = true.
Proof.
  destruct (open_pdf_from_path_returns_closed_handle
              (fun _ => inl Samples.encrypted_doc) "/tmp/upload.pdf" None
              Samples.encrypted_doc [] eq_refl eq_refl eq_refl)
    as (Hrun & Hclosed & _).
  split; [exact Hrun | exact Hclosed].
Defined.

(** C7: the code at an encrypted document opened with no password, and
    with a wrong one: [open_pdf_from_path] returns a handle in both
    cases; it raises no [PasswordProtectedPDFError]. *)
Theorem open_pdf_from_path_returns_on_failed_authentication :
  PdfParser.open_pdf_from_path (fun _ => inl Samples.encrypted_doc)
    "/tmp/upload.pdf" None []
  = (Ok (Fitz.close Samples.encrypted_doc),
     [OpenDocument "/tmp/upload.pdf"; CloseDocument])
  /\ PdfParser.open_pdf_from_path (fun _ => inl Samples.encrypted_doc)
       "/tmp/upload.pdf" (Some "guess") []
     = (Ok (Fitz.close Samples.encrypted_doc),
        [OpenDocument "/tmp/upload.pdf"; CloseDocument])
  /\ forall message,
       fst (PdfParser.open_pdf_from_path (fun _ => inl Samples.encrypted_doc)
              "/tmp/upload.pdf" None [])
       <> Raise (PDFError PasswordProtectedPDFError message).
Proof.
  split; [reflexivity|]. split; [reflexivity|].
  intros message. cbn. discriminate.
Qed.

(** With the right password the handle stays open. *)
Lemma open_pdf_from_path_with_password :
  PdfParser.open_pdf_from_path (fun _ => inl Samples.encrypted_doc)
    "/tmp/upload.pdf" (Some "secret") []
  = (Ok Samples.encrypted_doc, [OpenDocument "/tmp/upload.pdf"]).
Proof. reflexivity. Qed.

(** What the library raises goes through [open_pdf_from_path] as it
    is. *)
Lemma open_pdf_from_path_reraises fitz_open file_path password what t :
  fitz_open file_path = inr what ->
  PdfParser.open_pdf_from_path fitz_open file_path password t
  = (Raise (LibraryError what), (t ++ [OpenDocument file_path])%list).
Proof.
  intros Hopen.
  unfold PdfParser.open_pdf_from_path, try_except, bind, emit, lift, raise.
  rewrite Hopen. reflexivity.
Qed.

(* ================================================================== *)
(** ** pdf_parser.py: images *)

(** The fallback runs exactly when the primary path finds no image in
    the whole document and the document has a page. *)
Lemma extract_images_fallback_condition pdfimages doc t :
  Fitz.is_closed doc = false ->
  PdfParser.extract_images pdfimages doc t
  = if negb (Py.truthy
               (flat_map (PdfParser.page_images doc)
                         (Py.range (Fitz.num_pages doc))))
       && (Fitz.num_pages doc >? 0)
    then PdfParser._extract_images_with_fallback pdfimages (Fitz.name doc) t
    else (Ok (flat_map (PdfParser.page_images doc)
                       (Py.range (Fitz.num_pages doc))), t).
Proof.
  intros Hopen.
  unfold PdfParser.extract_images, Fitz.page_count, bind, lift, ret.
  rewrite Hopen.
  now destruct (negb _ && _).
Qed.

(** Every image of the fallback is attributed to page 0. *)
Lemma fallback_images_on_page_0 pdfimages file_path t images t' :
  PdfParser._extract_images_with_fallback pdfimages file_path t
  = (Ok images, t') ->
  forall image, In image images -> Image.page image = 0.
Proof.
  unfold PdfParser._extract_images_with_fallback, try_except, bind, emit,
    lift, ret, raise.
  destruct (pdfimages file_path) as [files| | | |]; cbn; intros H;
    inversion H; subst; intros image Hin.
  - apply in_map_iff in Hin. destruct Hin as (f & <- & _). reflexivity.
  - contradiction.
  - contradiction.
Qed.

(** A missing executable and a non-zero exit status give the empty
    list. *)
Lemma fallback_swallows_missing_tool_and_failed_run pdfimages file_path t :
  (pdfimages file_path = PdfParser.NoSuchExecutable
   \/ exists code, pdfimages file_path = PdfParser.NonZeroExit code) ->
  PdfParser._extract_images_with_fallback pdfimages file_path t
  = (Ok [], (t ++ [RunPdfimages file_path])%list).
Proof.
  unfold PdfParser._extract_images_with_fallback, try_except, bind, emit,
    lift, ret.
  intros [H | [code H]]; rewrite H; reflexivity.
Qed.

(** C5: the code when the tool runs out of time.  The [except] clause
    of [_extract_images_with_fallback] names [CalledProcessError] and
    [FileNotFoundError]; [TimeoutExpired] is neither, so it leaves the
    function, and [extract_images] with it, instead of an empty list. *)
Theorem fallback_timeout_is_raised :
  (forall file_path t,
      PdfParser._extract_images_with_fallback
        (fun _ => PdfParser.TimedOut) file_path t
      = (Raise TimeoutExpired, (t ++ [RunPdfimages file_path])%list))
  /\ PdfParser.extract_images (fun _ => PdfParser.TimedOut)
       Samples.text_only_doc []
     = (Raise TimeoutExpired, [RunPdfimages "/tmp/upload.pdf"]).
Proof.
  split; [intros file_path t|]; reflexivity.
Qed.

(* ================================================================== *)
(** ** main.py: validation of the upload and error responses *)

(** C8: the content type is checked first: an upload that is not
    declared [application/pdf] is answered 400 and nothing has been read
    (the trace is unchanged).  The size is checked next: a body of more
    than 50 MiB is answered 413, a client error with another status, when
    the body has been read and nothing else has happened: no temporary
    file, no document opened. *)
Theorem upload_validation_order :
  forall model fitz_parse plumber_parse pdfimages temp_file_path
         splitext_root file t,
    (Main.content_type file <> Some "application/pdf" ->
     Main.respond model fitz_parse plumber_parse pdfimages temp_file_path
       splitext_root file t
     = (Main.JSONResponse 400
          (Main.JObject [("detail", Main.JString "Invalid file type.")]),
        t))
    /\ (Main.content_type file = Some "application/pdf" ->
        Z.of_nat (List.length (Main.body file)) > 50 * 1024 * 1024 ->
        Main.respond model fitz_parse plumber_parse pdfimages temp_file_path
          splitext_root file t
        = (Main.JSONResponse 413
             (Main.JObject
                [("detail", Main.JString "File size exceeds limit.")]),
           (t ++ [ReadUpload])%list))
    /\ Main.MAX_FILE_SIZE = 52428800.
Proof.
  intros model fitz_parse plumber_parse pdfimages temp_file_path
         splitext_root file t.
  split; [|split; [|reflexivity]].
  - intros Hct. unfold Main.respond, Main.convert_pdf_to_html.
    destruct (Main.content_type file) as [ct|]; [|reflexivity].
    destruct (String.eqb_spec ct "application/pdf") as [->|Hne];
      [now elim Hct | reflexivity].
  - intros Hct Hsize. unfold Main.respond, Main.convert_pdf_to_html.
    rewrite Hct. cbn [String.eqb Ascii.eqb Bool.eqb negb].
    unfold bind, emit.
    replace (Z.of_nat (List.length (Main.body file)) >? Main.MAX_FILE_SIZE)
      with true
      by (symmetry; apply Z.gtb_lt; unfold Main.MAX_FILE_SIZE; lia).
    reflexivity.
Qed.

(** A text upload, and an upload of 50 MiB and one byte. *)
Lemma upload_validation_order_witness :
  Main.respond Samples.echo_model (fun _ => inl Samples.one_page_doc)
    (fun _ => inl [ [] ]) (fun _ => PdfParser.NoSuchExecutable)
    "/tmp/upload.pdf" Samples.splitext_root Samples.text_upload []
  = (Main.JSONResponse 400
       (Main.JObject [("detail", Main.JString "Invalid file type.")]),
     [])
  /\ Main.respond Samples.echo_model (fun _ => inl Samples.one_page_doc)
       (fun _ => inl [ [] ]) (fun _ => PdfParser.NoSuchExecutable)
       "/tmp/upload.pdf" Samples.splitext_root Samples.oversized_upload []
     = (Main.JSONResponse 413
          (Main.JObject [("detail", Main.JString "File size exceeds limit.")]),
        [ReadUpload]).
Proof.
  split.
  - apply (upload_validation_order Samples.echo_model
             (fun _ => inl Samples.one_page_doc) (fun _ => inl [ [] ])
             (fun _ => PdfParser.NoSuchExecutable) "/tmp/upload.pdf"
             Samples.splitext_root Samples.text_upload []).
    discriminate.
  - apply (upload_validation_order Samples.echo_model
             (fun _ => inl Samples.one_page_doc) (fun _ => inl [ [] ])
             (fun _ => PdfParser.NoSuchExecutable) "/tmp/upload.pdf"
             Samples.splitext_root Samples.oversized_upload []).
    + reflexivity.
    + unfold Samples.oversized_upload, Samples.pdf_upload.
      cbn [Main.body]. rewrite repeat_length, Z2Nat.id;
        unfold Main.MAX_FILE_SIZE; lia.
Defined.

(** C6: the code at an upload that the PDF library cannot parse.
    [open_pdf_from_path] re-raises the library's exception as it is,
    none of the classes of [exceptions.py]; the endpoint's second
    [except] clause turns it into the generic 500, whatever the library
    said. *)
Theorem unparseable_upload_is_answered_500 :
  forall model plumber_parse pdfimages temp_file_path splitext_root what t,
    Main.respond model (fun _ => inr what) plumber_parse pdfimages
      temp_file_path splitext_root (Samples.pdf_upload [x68; x69]) t
    = (Main.JSONResponse 500
         (Main.JObject
            [("detail", Main.JString "An internal server error occurred.")]),
       (t ++ [ReadUpload; WriteTempFile temp_file_path;
              OpenDocument temp_file_path;
              RemoveTempFile temp_file_path])%list).
Proof.
  intros model plumber_parse pdfimages temp_file_path splitext_root what t.
  unfold Main.respond, Main.convert_pdf_to_html.
  cbn [Samples.pdf_upload Main.content_type Main.body String.eqb Ascii.eqb
       Bool.eqb negb List.length Z.of_nat].
  cbn. now rewrite <- !app_assoc.
Qed.

(** The handler registered for [PDFProcessingError] answers 400 with the
    class name and the message. *)
Lemma pdf_processing_exception_handler_response cls message :
  Main.pdf_processing_exception_handler cls message
  = Main.JSONResponse 400
      (Main.JObject
         [("error",
           Main.JObject [("type", Main.JString (class_name cls));
                         ("message", Main.JString message)])]).
Proof. reflexivity. Qed.

(* ================================================================== *)
(** ** main.py: the entries of the archive *)

Lemma length_append (a b : string) :
  String.length (a ++ b) = (String.length a + String.length b)%nat.
Proof.
  induction a as [|x a IH]; simpl; [reflexivity | now rewrite IH].
Qed.

Lemma append_inv_tail (a b c : string) : a ++ c = b ++ c -> a = b.
Proof.
  revert b. induction a as [|x a IH]; intros [|y b] H.
  - reflexivity.
  - apply (f_equal String.length) in H.
    simpl in H. rewrite length_append in H. lia.
  - apply (f_equal String.length) in H.
    simpl in H. rewrite length_append in H. lia.
  - cbn [append] in H. injection H as -> H. f_equal. auto.
Qed.

Lemma page_entry_name_inj (a b : Z) :
  Main.page_entry_name a = Main.page_entry_name b -> a = b.
Proof.
  unfold Main.page_entry_name. intros H.
  apply append_inv_head, append_inv_tail in H. now apply str_int_inj.
Qed.

Lemma range_NoDup (n : Z) : NoDup (Py.range n).
Proof.
  unfold Py.range. apply Injective_map_NoDup; [|apply seq_NoDup].
  intros a b. apply Nat2Z.inj.
Qed.

Lemma page_entry_names_NoDup (N : Z) : NoDup (page_entry_names N).
Proof.
  unfold page_entry_names. apply Injective_map_NoDup; [|apply range_NoDup].
  intros a b H. apply page_entry_name_inj in H. lia.
Qed.

Lemma image_entry_names_NoDup (images : list Image.t) :
  NoDup (map Image.name images) ->
  NoDup (map Main.image_entry_name images).
Proof.
  intros H.
  replace (map Main.image_entry_name images)
    with (map (fun s => "images/" ++ s) (map Image.name images))
    by (rewrite map_map; reflexivity).
  apply Injective_map_NoDup; [|exact H].
  intros a b. apply append_inv_head.
Qed.

(** A page name, the stylesheet and an image name never coincide. *)
Lemma entry_names_apart (N : Z) (images : list Image.t) :
  ~ In "style.css" (page_entry_names N)
  /\ ~ In "style.css" (map Main.image_entry_name images)
  /\ forall a, In a (page_entry_names N) ->
               ~ In a (map Main.image_entry_name images).
Proof.
  unfold page_entry_names. repeat split.
  - intros H. apply in_map_iff in H. destruct H as (k & H & _).
    discriminate H.
  - intros H. apply in_map_iff in H. destruct H as (k & H & _).
    discriminate H.
  - intros a Ha Hi. apply in_map_iff in Ha. destruct Ha as (k & <- & _).
    apply in_map_iff in Hi. destruct Hi as (i & H & _).
    discriminate H.
Qed.

Lemma entry_names_writestr zip_file arcname data :
  Main.entry_names (Main.writestr zip_file arcname data)
  = (Main.entry_names zip_file ++ [arcname])%list.
Proof.
  unfold Main.entry_names, Main.writestr. now rewrite map_app.
Qed.

Lemma entry_names_write_images (images : list Image.t) zip_file :
  Main.entry_names (Main.write_images zip_file images)
  = (Main.entry_names zip_file ++ map Main.image_entry_name images)%list.
Proof.
  unfold Main.write_images.
  revert zip_file. induction images as [|image images IH]; intros zip_file.
  - cbn. now rewrite app_nil_r.
  - cbn [fold_left map]. rewrite IH, entry_names_writestr.
    now rewrite <- app_assoc.
Qed.

(** A page that converts adds its entry at the end. *)
Lemma convert_page_entry model total_pages all_text_data all_image_data
      all_table_data zip_file page_num t zip_file' t' :
  Main.convert_page model total_pages all_text_data all_image_data
    all_table_data zip_file page_num t = (Ok zip_file', t') ->
  Main.entry_names zip_file'
  = (Main.entry_names zip_file
       ++ [Main.page_entry_name (page_num + 1)])%list.
Proof.
  unfold Main.convert_page, bind, lift, ret.
  destruct (Main.index all_text_data page_num) as [entry|e];
    [|discriminate].
  destruct (HtmlGenerator.generate_markdown_from_data _ _ _ _ t)
    as [[markdown_content|e] t1]; [|discriminate].
  destruct (HtmlGenerator.generate_html_from_markdown _ _ _ _ t1)
    as [[final_html|e] t2]; [|discriminate].
  intros H. injection H as <- _. apply entry_names_writestr.
Qed.

Lemma for_each_pages_entries model total_pages all_text_data all_image_data
      all_table_data (pages : list Z) zip_file t zip_file' t' :
  Main.for_each
    (Main.convert_page model total_pages all_text_data all_image_data
       all_table_data) pages zip_file t = (Ok zip_file', t') ->
  Main.entry_names zip_file'
  = (Main.entry_names zip_file
       ++ map (fun page_num => Main.page_entry_name (page_num + 1))
              pages)%list.
Proof.
  revert zip_file t. induction pages as [|page_num pages IH];
    intros zip_file t H.
  - cbn in H. injection H as <- _. cbn. now rewrite app_nil_r.
  - cbn [Main.for_each] in H. unfold bind in H.
    destruct (Main.convert_page _ _ _ _ _ zip_file page_num t)
      as [[zip1|e] t1] eqn:Hpage; [|discriminate].
    apply IH in H. apply convert_page_entry in Hpage.
    rewrite H, Hpage. cbn [map]. now rewrite <- app_assoc.
Qed.

(** The entries of an archive that has been produced. *)
Lemma build_archive_entry_names :
  forall model N all_text_data all_image_data all_table_data t zip_file t',
    Main.build_archive model N all_text_data all_image_data all_table_data t
    = (Ok zip_file, t') ->
    Main.entry_names zip_file
    = (page_entry_names N
         ++ "style.css" :: map Main.image_entry_name all_image_data)%list
    /\ (NoDup (map Image.name all_image_data) ->
        NoDup (Main.entry_names zip_file)).
Proof.
  intros model N all_text_data all_image_data all_table_data t zip_file t'
         Hrun.
  assert (Hnames :
            Main.entry_names zip_file
            = (page_entry_names N
                 ++ "style.css"
                 :: map Main.image_entry_name all_image_data)%list).
  { unfold Main.build_archive, bind, ret in Hrun.
    destruct (Main.for_each
                (Main.convert_page model N all_text_data all_image_data
                   all_table_data) (Py.range N) [] t)
      as [[zip1|e] t1] eqn:Hloop; [|discriminate].
    apply for_each_pages_entries in Hloop. cbn [Main.entry_names map] in Hloop.
    injection Hrun as <- _.
    destruct all_image_data as [|image images]; cbn [Py.truthy].
    - rewrite entry_names_writestr. fold (Main.entry_names zip1).
      rewrite Hloop. reflexivity.
    - rewrite entry_names_write_images, entry_names_writestr.
      fold (Main.entry_names zip1). rewrite Hloop, <- app_assoc.
      reflexivity. }
  split; [exact Hnames|].
  intros Hdistinct. rewrite Hnames.
  destruct (entry_names_apart N all_image_data) as (Hcss1 & Hcss2 & Hapart).
  apply NoDup_app.
  - apply page_entry_names_NoDup.
  - constructor; [exact Hcss2 | now apply image_entry_names_NoDup].
  - intros a Ha [<- | Hi]; [now apply Hcss1 | now apply (Hapart a)].
Qed.

(** The loop over the pages ends with an archive when the model answers
    every call and the text of every page is there. *)
Lemma for_each_pages_succeeds model total_pages all_text_data all_image_data
      all_table_data (pages : list Z) zip_file t :
  (forall t c, exists s, model t c = Ok s) ->
  (forall page_num, In page_num pages ->
                    exists entry,
                      Main.index all_text_data page_num = Ok entry) ->
  exists zip_file' t',
    Main.for_each
      (Main.convert_page model total_pages all_text_data all_image_data
         all_table_data) pages zip_file t = (Ok zip_file', t').
Proof.
  intros Hmodel. revert zip_file t.
  induction pages as [|page_num pages IH]; intros zip_file t Htext.
  - do 2 eexists. reflexivity.
  - cbn [Main.for_each]. unfold bind at 1.
    assert (Hpage : exists zip1 t1,
               Main.convert_page model total_pages all_text_data
                 all_image_data all_table_data zip_file page_num t
               = (Ok zip1, t1)).
    { unfold Main.convert_page, bind, lift, ret.
      destruct (Htext page_num (or_introl eq_refl)) as [entry ->].
      unfold HtmlGenerator.generate_markdown_from_data,
        HtmlGenerator.generate_html_from_markdown,
        HtmlGenerator.chain_invoke, ret.
      destruct (Py.len _ >? HtmlGenerator.MAX_CHARS).
      - match goal with
        | |- context [model ?t0 ?c0] =>
            destruct (Hmodel t0 c0) as [s ->]
        end.
        do 2 eexists. reflexivity.
      - match goal with
        | |- context [model ?t0 ?c0] =>
            destruct (Hmodel t0 c0) as [s ->]
        end.
        match goal with
        | |- context [model ?t0 ?c0] =>
            destruct (Hmodel t0 c0) as [s' ->]
        end.
        do 2 eexists. reflexivity. }
    destruct Hpage as (zip1 & t1 & ->).
    apply IH. intros k Hk. apply Htext. now right.
Qed.

(** C2, as the code has it: for a document of [N] pages whose text is
    there for every page, and a model that answers every call, the
    archive is produced and its entries are, in the order they were
    written, [page-1.html] to [page-N.html], then [style.css], then one
    [images/<name>] entry for each extracted image, in the order of
    extraction; no name occurs twice among them provided the names of the
    extracted images are pairwise distinct. *)
Theorem build_archive_entries :
  forall model N all_text_data all_image_data all_table_data t,
    (forall t c, exists s, model t c = Ok s) ->
    (forall page_num, In page_num (Py.range N) ->
                      exists entry,
                        Main.index all_text_data page_num = Ok entry) ->
    exists zip_file t',
      Main.build_archive model N all_text_data all_image_data all_table_data t
      = (Ok zip_file, t')
      /\ Main.entry_names zip_file
         = (page_entry_names N
              ++ "style.css" :: map Main.image_entry_name all_image_data)%list
      /\ (NoDup (map Image.name all_image_data) ->
          NoDup (Main.entry_names zip_file)).
Proof.
  intros model N all_text_data all_image_data all_table_data t Hmodel Htext.
  destruct (for_each_pages_succeeds model N all_text_data all_image_data
              all_table_data (Py.range N) [] t Hmodel Htext)
    as (zip1 & t1 & Hloop).
  assert (Hrun : exists zip_file,
             Main.build_archive model N all_text_data all_image_data
               all_table_data t = (Ok zip_file, t1)).
  { unfold Main.build_archive, bind, ret. rewrite Hloop. eexists.
    reflexivity. }
  destruct Hrun as [zip_file Hrun].
  exists zip_file, t1. split; [exact Hrun|].
  exact (build_archive_entry_names _ _ _ _ _ _ _ _ Hrun).
Qed.

(** Two pages and two images with different names. *)
Lemma build_archive_entries_witness :
  exists zip_file t',
    Main.build_archive Samples.echo_model 2 Samples.two_pages_text
      Samples.two_images [] [] = (Ok zip_file, t')
    /\ Main.entry_names zip_file
       = ["page-1.html"; "page-2.html"; "style.css";
          "images/image_0_7.png"; "images/image_1_9.jpeg"]
    /\ NoDup (Main.entry_names zip_file).
Proof.
  destruct (build_archive_entries Samples.echo_model 2
              Samples.two_pages_text Samples.two_images [] [])
    as (zip_file & t' & Hrun & Hnames & Hdistinct).
  - intros t c. exists "generated". reflexivity.
  - intros page_num Hin. cbn in Hin.
    destruct Hin as [<- | [<- | []]]; eexists; reflexivity.
  - exists zip_file, t'. split; [exact Hrun|]. split; [exact Hnames|].
    apply Hdistinct. cbn.
    repeat constructor; cbn; intuition discriminate.
Defined.

(** C2, as the claim states it, fails on a page that lists the same
    image twice: both items get the name [image_0_7.png], and the archive
    holds two entries of that name. *)
Lemma archive_repeats_image_entry :
  exists zip_buffer media_type content_disposition t',
    Main.respond Samples.echo_model (fun _ => inl Samples.one_page_doc)
      (fun _ => inl [ [] ]) (fun _ => PdfParser.NoSuchExecutable)
      "/tmp/upload.pdf" Samples.splitext_root
      (Samples.pdf_upload [x25; x50]) []
    = (Main.StreamingResponse zip_buffer media_type content_disposition, t')
    /\ Main.entry_names zip_buffer
       = ["page-1.html"; "style.css";
          "images/image_0_7.png"; "images/image_0_7.png"]
    /\ ~ NoDup (Main.entry_names zip_buffer).
Proof.
  do 4 eexists. split; [reflexivity|]. split; [reflexivity|].
  intros Hpages.
  apply NoDup_cons_iff in Hpages. destruct Hpages as [_ Hcss].
  apply NoDup_cons_iff in Hcss. destruct Hcss as [_ Himages].
  apply NoDup_cons_iff in Himages. destruct Himages as [Hfresh _].
  apply Hfresh. now left.
Qed.


(** The same through the endpoint's [try] block: the archive sent back
    for a document is made of its pages, the stylesheet and the images
    that [extract_images] returned. *)
Lemma process_archive_entries model plumber_parse pdfimages temp_file_path
      splitext_root file doc t response t' :
  Main.process model plumber_parse pdfimages temp_file_path splitext_root
    file doc t = (Ok response, t') ->
  exists zip_buffer content_disposition all_image_data t0,
    response
    = Main.StreamingResponse zip_buffer "application/zip" content_disposition
    /\ PdfParser.extract_images pdfimages doc t = (Ok all_image_data, t0)
    /\ Main.entry_names zip_buffer
       = (page_entry_names (Fitz.num_pages doc)
            ++ "style.css" :: map Main.image_entry_name all_image_data)%list.
Proof.
  unfold Main.process, bind, lift, ret.
  unfold PdfParser.extract_text_with_positions, bind, lift, ret.
  unfold Fitz.page_count at 1 2.
  destruct (Fitz.is_closed doc); [discriminate|].
  destruct (PdfParser.extract_images pdfimages doc t)
    as [[all_image_data|e] t1] eqn:Himages; [|discriminate].
  destruct (PdfParser.extract_tables_with_pdfplumber _ temp_file_path t1)
    as [[all_table_data|e] t2]; [|discriminate].
  destruct (Main.build_archive model _ _ _ _ t2)
    as [[zip_buffer|e] t3] eqn:Hzip; [|discriminate].
  destruct (Main.download_filename splitext_root file)
    as [download_filename|e]; [|discriminate].
  cbv zeta. unfold raise.
  destruct (Py.latin1_encodable _); [|discriminate].
  intros H. injection H as <- _.
  exists zip_buffer, ("attachment; filename=" ++ download_filename),
    all_image_data, t1.
  split; [reflexivity|]. split; [reflexivity|].
  exact (proj1 (build_archive_entry_names _ _ _ _ _ _ _ _ Hzip)).
Qed.

(** What the endpoint makes of an exception of its [try] block: one of
    the classes of [exceptions.py] goes on as it is; anything else
    becomes the same 500, with a fixed text. *)
Lemma on_exception_cases (e : exn) (t : trace) :
  Main.on_exception e t
  = match e with
    | PDFError cls message => (Raise (PDFError cls message), t)
    | _ => (Raise (HTTPException 500 "An internal server error occurred."),
            t)
    end.
Proof. destruct e; reflexivity. Qed.

(* ================================================================== *)
(** ** pdf_parser.py: text *)

Lemma in_range (n k : Z) : In k (Py.range n) <-> 0 <= k < n.
Proof.
  unfold Py.range. rewrite in_map_iff. split.
  - intros (i & <- & Hi). apply in_seq in Hi. lia.
  - intros Hk. exists (Z.to_nat k). split; [lia|]. apply in_seq. lia.
Qed.

Lemma index_range {A} (f : Z -> A) (n k : Z) :
  0 <= k < n -> Main.index (map f (Py.range n)) k = Ok (f k).
Proof.
  intros Hk. unfold Main.index, Py.range.
  rewrite map_map, nth_error_map, nth_error_seq.
  replace (Z.to_nat k <? Z.to_nat n)%nat with true
    by (symmetry; apply Nat.ltb_lt; lia).
  cbn. now rewrite Z2Nat.id by lia.
Qed.

(** X1: on an open document [extract_text_with_positions] gives one
    entry for each page, in page order, leaving no trace; entry
    [page_num] carries that page number and the text of that page, so the
    lookup [all_text_data[page_num]] of the endpoint finds its entry for
    every page of the document. *)
Theorem extract_text_covers_every_page :
  forall doc t,
    Fitz.is_closed doc = false ->
    exists all_text_data,
      PdfParser.extract_text_with_positions doc t = (Ok all_text_data, t)
      /\ List.length all_text_data = Z.to_nat (Fitz.num_pages doc)
      /\ forall page_num,
           0 <= page_num < Fitz.num_pages doc ->
           Main.index all_text_data page_num
           = Ok {| PdfParser.PageText.page_number := page_num;
                   PdfParser.PageText.blocks :=
                     PdfParser.page_text_blocks
                       (Fitz.get_text_blocks doc page_num) |}.
Proof.
  intros doc t Hopen.
  unfold PdfParser.extract_text_with_positions, Fitz.page_count, bind, lift,
    ret.
  rewrite Hopen. eexists. split; [reflexivity|]. split.
  - unfold Py.range. now rewrite !length_map, length_seq.
  - intros page_num Hk.
    exact (index_range
             (fun k => {| PdfParser.PageText.page_number := k;
                          PdfParser.PageText.blocks :=
                            PdfParser.page_text_blocks
                              (Fitz.get_text_blocks doc k) |})
             (Fitz.num_pages doc) page_num Hk).
Qed.

(** The sample document of two pages. *)
Lemma extract_text_covers_every_page_witness :
  exists all_text_data,
    PdfParser.extract_text_with_positions Samples.two_pages_doc []
    = (Ok all_text_data, [])
    /\ List.length all_text_data = 2%nat
    /\ Main.index all_text_data 1
       = Ok {| PdfParser.PageText.page_number := 1;
               PdfParser.PageText.blocks := [] |}.
Proof.
  destruct (extract_text_covers_every_page Samples.two_pages_doc []
              eq_refl)
    as (all_text_data & Hrun & Hlen & Hindex).
  exists all_text_data. split; [exact Hrun|]. split; [exact Hlen|].
  apply (Hindex 1). cbn. lia.
Defined.

(** [round] takes a nearest integer. *)
Lemma round_nearest (x : Q) :
  (inject_Z (Py.round x) - x <= 1 # 2)%Q
  /\ (x - inject_Z (Py.round x) <= 1 # 2)%Q.
Proof.
  unfold Py.round.
  pose proof (Qfloor_le x) as Hlo. pose proof (Qlt_floor x) as Hhi.
  rewrite inject_Z_plus in Hhi. change (inject_Z 1) with 1%Q in Hhi.
  destruct (Qcompare (x - inject_Z (Qfloor x)) (1 # 2)) eqn:Hcmp.
  - apply Qeq_alt in Hcmp.
    destruct (Z.even (Qfloor x));
      [|rewrite inject_Z_plus; change (inject_Z 1) with 1%Q]; split; lra.
  - apply Qlt_alt in Hcmp. split; lra.
  - apply Qgt_alt in Hcmp. rewrite inject_Z_plus.
    change (inject_Z 1) with 1%Q. split; lra.
Qed.

(** Half-way between two integers, [round] takes the even one. *)
Lemma round_tie_even (x : Q) :
  (x - inject_Z (Qfloor x) == 1 # 2)%Q -> Z.even (Py.round x) = true.
Proof.
  intros Htie. unfold Py.round. apply Qeq_alt in Htie. rewrite Htie.
  destruct (Z.even (Qfloor x)) eqn:Heven; [exact Heven|].
  rewrite Z.add_1_r, Z.even_succ, <- Z.negb_even, Heven. reflexivity.
Qed.

Lemma flat_map_map_spans (lines : list Fitz.Line) :
  flat_map
    (fun line => map PdfParser.text_block_of_span (Fitz.spans line)) lines
  = map PdfParser.text_block_of_span (flat_map Fitz.spans lines).
Proof.
  induction lines as [|line lines IH]; [reflexivity|].
  cbn [flat_map]. now rewrite map_app, IH.
Qed.

(** X2: the text blocks of a page are the spans of its blocks of type
    0, in reading order; blocks of any other type add nothing.  Each
    text block keeps the text, box, font and colour of its span; its
    size is an integer nearest to the span's size, the even one when the
    span's size lies half-way between two integers. *)
Theorem text_blocks_follow_text_spans :
  forall blocks,
    PdfParser.page_text_blocks blocks
    = map PdfParser.text_block_of_span (text_spans blocks)
    /\ forall span,
         let b := PdfParser.text_block_of_span span in
         TextBlock.text b = Fitz.span_text span
         /\ TextBlock.bbox b = Fitz.span_bbox span
         /\ TextBlock.font b = Fitz.span_font span
         /\ TextBlock.color b = Fitz.span_color span
         /\ (inject_Z (TextBlock.size b) - Fitz.span_size span <= 1 # 2)%Q
         /\ (Fitz.span_size span - inject_Z (TextBlock.size b) <= 1 # 2)%Q
         /\ ((Fitz.span_size span
              - inject_Z (Qfloor (Fitz.span_size span)) == 1 # 2)%Q ->
             Z.even (TextBlock.size b) = true).
Proof.
  intros blocks. split.
  - unfold PdfParser.page_text_blocks, text_spans.
    induction blocks as [|block blocks IH]; [reflexivity|].
    cbn [flat_map]. rewrite map_app, IH.
    destruct (Fitz.type block =? 0); [|reflexivity].
    now rewrite flat_map_map_spans.
  - intros span b. repeat split; try apply round_nearest.
    apply round_tie_even.
Qed.

(* ================================================================== *)
(** ** pdf_parser.py: tables *)

Lemma tables_entries_from (pages : list (list Table)) (start : Z) :
  let all_tables :=
    flat_map PdfParser.tables_entry (Py.enumerate_from start pages) in
  StronglySorted Z.lt (map PageTables.page_number all_tables)
  /\ Forall (fun e => start <= PageTables.page_number e
                      < start + Z.of_nat (List.length pages))
            all_tables.
Proof.
  revert start. induction pages as [|tables pages IH]; intros start.
  - cbn. split; constructor.
  - cbn zeta in *. cbn [Py.enumerate_from flat_map].
    destruct (IH (start + 1)) as [Hsorted Hbounds].
    assert (Hwider :
              Forall (fun e => start <= PageTables.page_number e
                               < start + Z.of_nat
                                           (List.length (tables :: pages)))
                     (flat_map PdfParser.tables_entry
                        (Py.enumerate_from (start + 1) pages))).
    { eapply Forall_impl; [|exact Hbounds].
      intros e He. cbv beta in *. cbn [List.length]. lia. }
    unfold PdfParser.tables_entry at 1 3. cbn [fst snd].
    destruct tables as [|tb tables]; cbn [Py.truthy List.app map].
    + split; assumption.
    + split.
      * constructor; [exact Hsorted|].
        apply Forall_map. eapply Forall_impl; [|exact Hbounds].
        intros e He. cbv beta in *. cbn [PageTables.page_number]. lia.
      * constructor; [|exact Hwider].
        cbv beta. cbn [PageTables.page_number List.length]. lia.
Qed.

(** X3: the result of [extract_tables_with_pdfplumber] lists page
    numbers in strictly ascending order, each within the pages of the
    file, so no page has two entries and the first match the endpoint
    takes is the only one. *)
Theorem extract_tables_page_numbers_ascend :
  forall plumber_pages file_path pages t,
    plumber_pages file_path = inl pages ->
    exists all_tables,
      PdfParser.extract_tables_with_pdfplumber plumber_pages file_path t
      = (Ok all_tables, (t ++ [OpenPlumber file_path])%list)
      /\ StronglySorted Z.lt (map PageTables.page_number all_tables)
      /\ NoDup (map PageTables.page_number all_tables)
      /\ Forall (fun e => 0 <= PageTables.page_number e
                          < Z.of_nat (List.length pages))
                all_tables.
Proof.
  intros plumber_pages file_path pages t Hpages.
  destruct (tables_entries_from pages 0) as [Hsorted Hbounds].
  exists (flat_map PdfParser.tables_entry (Py.enumerate pages)).
  split; [|split; [exact Hsorted|split; [|exact Hbounds]]].
  - unfold PdfParser.extract_tables_with_pdfplumber, bind, emit, lift, ret.
    rewrite Hpages. reflexivity.
  - unfold Py.enumerate.
    induction Hsorted as [|a l Hl IHl Ha]; constructor; [|exact IHl].
    intros Hin. rewrite Forall_forall in Ha. specialize (Ha a Hin). lia.
Qed.

(** A file of three pages with one table on page 0 and two on page 2. *)
Lemma extract_tables_page_numbers_ascend_witness :
  exists all_tables,
    PdfParser.extract_tables_with_pdfplumber
      (fun _ => inl [ [ [ [Some "a"] ] ]; [];
                      [ [ [Some "b"] ]; [ [None] ] ] ])
      "/tmp/upload.pdf" []
    = (Ok all_tables, [OpenPlumber "/tmp/upload.pdf"])
    /\ NoDup (map PageTables.page_number all_tables).
Proof.
  destruct (extract_tables_page_numbers_ascend
              (fun _ => inl [ [ [ [Some "a"] ] ]; [];
                              [ [ [Some "b"] ]; [ [None] ] ] ])
              "/tmp/upload.pdf"
              [ [ [ [Some "a"] ] ]; []; [ [ [Some "b"] ]; [ [None] ] ] ]
              [] eq_refl)
    as (all_tables & Hrun & _ & Hnodup & _).
  exists all_tables. split; [exact Hrun | exact Hnodup].
Defined.

(** A span of size 11.5: the size recorded is 12. *)
Lemma text_blocks_follow_text_spans_witness :
  PdfParser.page_text_blocks
    (Fitz.page_blocks Samples.two_pages_doc 0)
  = [PdfParser.text_block_of_span Samples.span]
  /\ Z.even (TextBlock.size (PdfParser.text_block_of_span Samples.span))
     = true.
Proof.
  destruct (text_blocks_follow_text_spans
              (Fitz.page_blocks Samples.two_pages_doc 0))
    as [Hblocks Hspan].
  split; [exact Hblocks|].
  apply (Hspan Samples.span). reflexivity.
Defined.

(* ================================================================== *)
(** ** pdf_parser.py: images and the join by page *)

Lemma page_images_page (doc : Fitz.Document) (page_num : Z) :
  Forall (fun image => Image.page image = page_num)
         (PdfParser.page_images doc page_num).
Proof.
  unfold PdfParser.page_images. apply Forall_map.
  apply Forall_forall. intros ix _. reflexivity.
Qed.

Lemma filter_page_images (doc : Fitz.Document) (page_num k : Z) :
  filter (fun img => Image.page img =? k) (PdfParser.page_images doc page_num)
  = if page_num =? k then PdfParser.page_images doc page_num else [].
Proof.
  pose proof (page_images_page doc page_num) as Hpage.
  induction Hpage as [|image images Himage _ IH]; cbn [filter].
  - now destruct (page_num =? k).
  - rewrite Himage, IH. now destruct (page_num =? k).
Qed.

Lemma filter_pages_images (doc : Fitz.Document) (pages : list Z) (k : Z) :
  NoDup pages ->
  filter (fun img => Image.page img =? k)
         (flat_map (PdfParser.page_images doc) pages)
  = if existsb (Z.eqb k) pages then PdfParser.page_images doc k else [].
Proof.
  induction 1 as [|page_num pages Hfresh _ IH]; [reflexivity|].
  cbn [flat_map existsb]. rewrite filter_app, filter_page_images, IH.
  rewrite (Z.eqb_sym k page_num).
  destruct (Z.eqb_spec page_num k) as [->|Hne]; [|reflexivity].
  cbn [orb].
  replace (existsb (Z.eqb k) pages) with false; [apply app_nil_r|].
  symmetry. apply not_true_is_false. intros Hex.
  apply existsb_exists in Hex. destruct Hex as (j & Hj & Heq).
  apply Z.eqb_eq in Heq. now subst j.
Qed.

(** X4: when the primary path finds an image, [extract_images] runs no
    tool, and the join of the endpoint gives page [k] exactly the images
    listed on page [k], in their order, each named after the page and its
    cross-reference number; a page number outside the document gets
    none. *)
Theorem primary_images_join_by_page :
  forall pdfimages doc t,
    Fitz.is_closed doc = false ->
    flat_map (PdfParser.page_images doc) (Py.range (Fitz.num_pages doc))
    <> [] ->
    exists all_image_data,
      PdfParser.extract_images pdfimages doc t = (Ok all_image_data, t)
      /\ (forall k,
             0 <= k < Fitz.num_pages doc ->
             Main.page_image_data all_image_data k
             = map (fun xref =>
                      {| Image.name :=
                           "image_" ++ Py.str_int k ++ "_" ++ Py.str_int xref
                           ++ "." ++ Fitz.ext (Fitz.extract_image doc xref);
                         Image.bytes :=
                           Fitz.image (Fitz.extract_image doc xref);
                         Image.page := k |})
                   (Fitz.get_page_images doc k))
      /\ (forall k,
             ~ 0 <= k < Fitz.num_pages doc ->
             Main.page_image_data all_image_data k = []).
Proof.
  intros pdfimages doc t Hopen Hsome.
  exists (flat_map (PdfParser.page_images doc)
                   (Py.range (Fitz.num_pages doc))).
  split; [|split].
  - rewrite extract_images_fallback_condition by exact Hopen.
    destruct (flat_map (PdfParser.page_images doc)
                       (Py.range (Fitz.num_pages doc)));
      [now elim Hsome | reflexivity].
  - intros k Hk. unfold Main.page_image_data.
    rewrite filter_pages_images by apply range_NoDup.
    replace (existsb (Z.eqb k) (Py.range (Fitz.num_pages doc))) with true.
    + unfold PdfParser.page_images, Py.enumerate.
      generalize 0 at 1. generalize (Fitz.get_page_images doc k).
      induction l as [|xref l IH]; intros start; [reflexivity|].
      cbn [Py.enumerate_from map snd]. f_equal. apply IH.
    + symmetry. apply existsb_exists. exists k. split; [|apply Z.eqb_refl].
      now apply in_range.
  - intros k Hk. unfold Main.page_image_data.
    rewrite filter_pages_images by apply range_NoDup.
    replace (existsb (Z.eqb k) (Py.range (Fitz.num_pages doc))) with false;
      [reflexivity|].
    symmetry. apply not_true_is_false. intros Hex.
    apply existsb_exists in Hex. destruct Hex as (j & Hj & Heq).
    apply Z.eqb_eq in Heq. subst j. now apply in_range in Hj.
Qed.

(** The sample document of two pages, one image on each. *)
Lemma primary_images_join_by_page_witness :
  exists all_image_data,
    PdfParser.extract_images (fun _ => PdfParser.NoSuchExecutable)
      Samples.two_pages_doc [] = (Ok all_image_data, [])
    /\ Main.page_image_data all_image_data 1
       = [ {| Image.name := "image_1_9.jpeg";
              Image.bytes := [xff; xd8];
              Image.page := 1 |} ].
Proof.
  destruct (primary_images_join_by_page
              (fun _ => PdfParser.NoSuchExecutable) Samples.two_pages_doc []
              eq_refl)
    as (all_image_data & Hrun & Hjoin & _).
  - cbn. discriminate.
  - exists all_image_data. split; [exact Hrun|].
    rewrite (Hjoin 1) by (cbn; lia). reflexivity.
Defined.

(** The fallback adds one event to the trace, the run of the tool. *)
Lemma fallback_runs_tool_once pdfimages file_path t :
  snd (PdfParser._extract_images_with_fallback pdfimages file_path t)
  = (t ++ [RunPdfimages file_path])%list.
Proof.
  unfold PdfParser._extract_images_with_fallback, try_except, bind, emit,
    lift, ret, raise.
  destruct (pdfimages file_path); reflexivity.
Qed.

(** X5: [_extract_images_with_fallback] runs the tool once.  When the
    tool completes, the result has one image for each file of the
    scratch directory, in the order of the listing, with the file's name
    and content and page 0.  A non-zero exit status and a missing
    executable give the empty list: [CalledProcessError] and
    [FileNotFoundError] never leave the function.  A run out of time and
    any other error of the launch are not caught: [TimeoutExpired], or
    that error, leaves the function. *)
Theorem fallback_outcomes :
  forall pdfimages file_path t,
    snd (PdfParser._extract_images_with_fallback pdfimages file_path t)
    = (t ++ [RunPdfimages file_path])%list
    /\ fst (PdfParser._extract_images_with_fallback pdfimages file_path t)
       = match pdfimages file_path with
         | PdfParser.Completed files =>
             Ok (map (fun f => {| Image.name := fst f;
                                  Image.bytes := snd f;
                                  Image.page := 0 |}) files)
         | PdfParser.NonZeroExit _ => Ok []
         | PdfParser.NoSuchExecutable => Ok []
         | PdfParser.TimedOut => Raise TimeoutExpired
         | PdfParser.LaunchFailed what => Raise (LibraryError what)
         end
    /\ (forall returncode,
           fst (PdfParser._extract_images_with_fallback pdfimages file_path
                  t)
           <> Raise (CalledProcessError returncode))
    /\ fst (PdfParser._extract_images_with_fallback pdfimages file_path t)
       <> Raise FileNotFoundError.
Proof.
  intros pdfimages file_path t.
  unfold PdfParser._extract_images_with_fallback, try_except, bind, emit,
    lift, ret, raise.
  destruct (pdfimages file_path) as [files| | | |]; cbn;
    repeat split; try discriminate.
Qed.

(** X6: on the fallback path the join of the endpoint gives every image
    to page 0 and none to any other page, whatever page showed it. *)
Theorem fallback_images_go_to_page_0 :
  forall pdfimages doc t all_image_data t',
    Fitz.is_closed doc = false ->
    flat_map (PdfParser.page_images doc) (Py.range (Fitz.num_pages doc))
    = [] ->
    0 < Fitz.num_pages doc ->
    PdfParser.extract_images pdfimages doc t = (Ok all_image_data, t') ->
    t' = (t ++ [RunPdfimages (Fitz.name doc)])%list
    /\ Main.page_image_data all_image_data 0 = all_image_data
    /\ forall k, k <> 0 -> Main.page_image_data all_image_data k = [].
Proof.
  intros pdfimages doc t all_image_data t' Hopen Hnone Hpages Hrun.
  rewrite extract_images_fallback_condition in Hrun by exact Hopen.
  rewrite Hnone in Hrun. cbn [Py.truthy negb andb] in Hrun.
  replace (Fitz.num_pages doc >? 0) with true in Hrun
    by (symmetry; apply Z.gtb_lt; lia).
  pose proof (fallback_images_on_page_0 _ _ _ _ _ Hrun) as Hzero.
  pose proof (fallback_runs_tool_once pdfimages (Fitz.name doc) t) as Htrace.
  rewrite Hrun in Htrace. cbn [snd] in Htrace.
  split; [exact Htrace|]. unfold Main.page_image_data.
  clear Hrun Htrace. split.
  - induction all_image_data as [|image images IH]; [reflexivity|].
    cbn [filter]. rewrite (Hzero image (or_introl eq_refl)). cbn.
    f_equal. apply IH. intros i Hi. apply Hzero. now right.
  - intros k Hk.
    induction all_image_data as [|image images IH]; [reflexivity|].
    cbn [filter]. rewrite (Hzero image (or_introl eq_refl)).
    replace (0 =? k) with false by (symmetry; apply Z.eqb_neq; lia).
    apply IH. intros i Hi. apply Hzero. now right.
Qed.

(** A one-page document without images; the tool leaves two files. *)
Lemma fallback_images_go_to_page_0_witness :
  Main.page_image_data
    (map PdfParser.fallback_image
       [("img-000.png", [x89; x50]); ("img-001.jpg", [xff; xd8])]) 0
  = map PdfParser.fallback_image
      [("img-000.png", [x89; x50]); ("img-001.jpg", [xff; xd8])].
Proof.
  apply (fallback_images_go_to_page_0
           (fun _ => PdfParser.Completed
                       [("img-000.png", [x89; x50]);
                        ("img-001.jpg", [xff; xd8])])
           Samples.text_only_doc []
           (map PdfParser.fallback_image
              [("img-000.png", [x89; x50]); ("img-001.jpg", [xff; xd8])])
           [RunPdfimages "/tmp/upload.pdf"]);
    reflexivity.
Defined.

(* ================================================================== *)
(** ** pdf_parser.py: what [open_pdf_from_path] can give *)

(** X7: [open_pdf_from_path] opens the file once and ends in one of
    three ways: it returns the handle the library gave, untouched and
    with no close in the trace, when the document is not encrypted or the
    password is accepted; it returns that handle closed when the document
    is encrypted and the password refused; it raises exactly what the
    library raised.  It never raises a class of [exceptions.py]. *)
Theorem open_pdf_from_path_outcomes :
  forall fitz_open file_path password t,
    match fitz_open file_path with
    | inl doc =>
        if Fitz.is_encrypted doc
           && (Fitz.authenticate doc (PdfParser.password_or_empty password)
               =? 0)
        then PdfParser.open_pdf_from_path fitz_open file_path password t
             = (Ok (Fitz.close doc),
                (t ++ [OpenDocument file_path; CloseDocument])%list)
        else PdfParser.open_pdf_from_path fitz_open file_path password t
             = (Ok doc, (t ++ [OpenDocument file_path])%list)
    | inr what =>
        PdfParser.open_pdf_from_path fitz_open file_path password t
        = (Raise (LibraryError what), (t ++ [OpenDocument file_path])%list)
    end
    /\ forall cls message,
         fst (PdfParser.open_pdf_from_path fitz_open file_path password t)
         <> Raise (PDFError cls message).
Proof.
  intros fitz_open file_path password t.
  unfold PdfParser.open_pdf_from_path, try_except, bind, emit, lift, ret,
    raise.
  destruct (fitz_open file_path) as [doc|what]; cbn [of_answer].
  - destruct (Fitz.is_encrypted doc); cbn [andb].
    + destruct (Fitz.authenticate doc _ =? 0); cbn;
        (split; [now rewrite <- ?app_assoc | discriminate]).
    + cbn. split; [reflexivity | discriminate].
  - cbn. split; [reflexivity | discriminate].
Qed.

(** [password or ""]: no password and the empty password are the
    same. *)
Lemma password_or_empty_cases (password : option string) :
  PdfParser.password_or_empty password
  = match password with
    | None => EmptyString
    | Some s => s
    end.
Proof. destruct password as [[|c s]|]; reflexivity. Qed.

(* ================================================================== *)
(** ** html_generator.py: what the model is sent *)

(** X8: the Markdown stage sends the model at most 15032 characters of
    page data: [generate_markdown_from_data] either leaves the trace as it
    is, or adds one call, to [gemini-2.0-flash-lite] at temperature 0
    under the fixed system prompt, whose human message is the 32
    characters of the introduction followed by a description of at most
    15000 characters. *)
Theorem markdown_request_within_budget :
  forall model blocks images tables t,
    snd (HtmlGenerator.generate_markdown_from_data model blocks images
           tables t) = t
    \/ exists c,
        snd (HtmlGenerator.generate_markdown_from_data model blocks images
               tables t) = (t ++ [ModelCall c])%list
        /\ call_model c = gemini_2_0_flash_lite
        /\ call_temperature c = 0
        /\ call_system c = HtmlGenerator.markdown_system_prompt
        /\ Py.len (call_human c) <= 15032.
Proof.
  intros model blocks images tables t.
  unfold HtmlGenerator.generate_markdown_from_data.
  destruct (Z.gtb_spec
              (Py.len (HtmlGenerator.format_data_for_llm blocks images
                         tables))
              HtmlGenerator.MAX_CHARS) as [Hover|Hfits].
  - left. reflexivity.
  - right. eexists. split; [reflexivity|]. repeat split.
    cbn [call_human]. unfold Py.len in *. rewrite !code_points_append.
    unfold HtmlGenerator.MAX_CHARS in Hfits.
    change (Py.code_points "Here is the data for the page:") with 30%nat.
    change (Py.code_points Py.nl) with 1%nat.
    lia.
Qed.

(** Two neighbours of a list are neighbours in the joined string. *)
Lemma occurs_in_join_neighbours (sep a b : string) (l1 l2 : list string) :
  Py.occurs_in (a ++ sep ++ b) (Py.join sep (l1 ++ a :: b :: l2)).
Proof.
  induction l1 as [|x l1 IH].
  - cbn [List.app]. rewrite join_cons, join_cons.
    destruct l2 as [|y l2].
    + apply occurs_in_refl.
    + exists EmptyString, (sep ++ Py.join sep (y :: l2)).
      cbn [append]. now rewrite !append_assoc.
  - cbn [List.app]. rewrite join_cons.
    destruct (l1 ++ a :: b :: l2)%list eqn:Hl; [now destruct l1|].
    now apply occurs_in_append_r, occurs_in_append_r.
Qed.

Lemma enumerate_from_split {A} (l : list A) (start : Z) (i : nat) (x : A) :
  nth_error l i = Some x ->
  exists l1 l2,
    Py.enumerate_from start l = (l1 ++ (start + Z.of_nat i, x) :: l2)%list.
Proof.
  revert start i. induction l as [|y l IH]; intros start [|i] Hnth;
    try discriminate.
  - injection Hnth as ->. exists [], (Py.enumerate_from (start + 1) l).
    cbn. now rewrite Z.add_0_r.
  - destruct (IH (start + 1) i Hnth) as (l1 & l2 & Hl).
    exists ((start, y) :: l1), l2. cbn [Py.enumerate_from List.app].
    rewrite Hl.
    replace (start + Z.of_nat (S i)) with (start + 1 + Z.of_nat i) by lia.
    reflexivity.
Qed.

(** X9: the tables of a page are shown to the model numbered from 1 in
    their order: for the table at position [i] (from 0) the description
    holds the line [--- Table i+1 ---] after an empty line, immediately
    followed by the rows of that table, one line each. *)
Theorem tables_numbered_from_one :
  forall blocks images (tables : list Table) i (table : Table),
    nth_error tables i = Some table ->
    Py.occurs_in
      (Py.nl ++ "--- Table " ++ Py.str_int (Z.of_nat i + 1) ++ " ---"
       ++ Py.nl ++ Py.join Py.nl (map HtmlGenerator.row_str table))
      (HtmlGenerator.format_data_for_llm blocks images tables).
Proof.
  intros blocks images tables i table Hnth.
  destruct (enumerate_from_split tables 0 i table Hnth) as (l1 & l2 & Hl).
  unfold HtmlGenerator.format_data_for_llm, HtmlGenerator.formatted_strings.
  assert (Htruthy : Py.truthy tables = true)
    by (destruct tables; [now destruct i | reflexivity]).
  cbv zeta. rewrite Htruthy. unfold Py.enumerate. rewrite Hl.
  rewrite flat_map_app. cbn [flat_map].
  unfold HtmlGenerator.table_lines at 2. cbn [fst snd List.app].
  match goal with
  | |- Py.occurs_in _ (Py.join _ (List.app ?pre (?h :: (?m ++ ?a :: ?b :: ?post)%list))) =>
      replace (List.app pre (h :: (m ++ a :: b :: post)%list))
        with ((pre ++ h :: m) ++ a :: b :: post)%list
        by (now rewrite <- app_assoc);
      pose proof (occurs_in_join_neighbours Py.nl a b (pre ++ h :: m)%list
                    post) as Hocc
  end.
  unfold HtmlGenerator.table_str in Hocc.
  rewrite !append_assoc in Hocc. rewrite Z.add_0_l in Hocc.
  exact Hocc.
Qed.

(** The second of two tables. *)
Lemma tables_numbered_from_one_witness :
  Py.occurs_in
    (Py.nl ++ "--- Table 2 ---" ++ Py.nl ++ "b | None")
    (HtmlGenerator.format_data_for_llm [] []
       [ [ [Some "a"] ]; [ [Some "b"; None] ] ]).
Proof.
  apply (tables_numbered_from_one [] []
           [ [ [Some "a"] ]; [ [Some "b"; None] ] ] 1
           [ [Some "b"; None] ]).
  reflexivity.
Defined.

(* ================================================================== *)
(** ** main.py: one page, two stages *)

(** X10: a page whose description is over the budget skips the
    Markdown call only: [convert_page] then makes exactly one call, to
    [gemini-2.0-flash] with the navigation of that page, and its human
    message carries the whole fallback document, hence every text of the
    page; the entry written is what that call answers. *)
Theorem oversized_page_reaches_html_stage :
  forall model N all_text_data all_image_data all_table_data zip_file
         page_num t entry,
    Main.index all_text_data page_num = Ok entry ->
    Py.len (HtmlGenerator.format_data_for_llm
              (PdfParser.PageText.blocks entry)
              (Main.page_image_data all_image_data page_num)
              (Main.page_tables all_table_data page_num))
    > HtmlGenerator.MAX_CHARS ->
    exists c,
      call_model c = gemini_2_0_flash
      /\ call_system c = HtmlGenerator.html_system_prompt (page_num + 1) N
      /\ call_human c
         = "CONTENT:" ++ Py.nl ++ Py.nl
           ++ "# Page Content Too Large for Detailed Analysis"
           ++ Py.nl ++ Py.nl
           ++ "The following is a raw text dump of the page content. Formatting has been simplified to avoid exceeding AI processing limits."
           ++ Py.nl ++ Py.nl ++ Py.nl ++ "---" ++ Py.nl
           ++ text_dump (PdfParser.PageText.blocks entry)
      /\ Main.convert_page model N all_text_data all_image_data
           all_table_data zip_file page_num t
         = (match model t c with
            | Ok final_html =>
                Ok (Main.writestr zip_file
                      (Main.page_entry_name (page_num + 1))
                      (Main.Text final_html))
            | Raise e => Raise e
            end,
            (t ++ [ModelCall c])%list).
Proof.
  intros model N all_text_data all_image_data all_table_data zip_file
         page_num t entry Hindex Hover.
  exists {| call_model := gemini_2_0_flash;
            call_temperature := 0;
            call_system :=
              HtmlGenerator.html_system_prompt (page_num + 1) N;
            call_human :=
              "CONTENT:" ++ Py.nl ++ Py.nl
              ++ Py.join (Py.nl ++ Py.nl)
                   (HtmlGenerator.fallback_md
                      (PdfParser.PageText.blocks entry)) |}.
  split; [reflexivity|]. split; [reflexivity|]. split.
  - cbn [call_human]. now rewrite fallback_markdown_shape.
  - unfold Main.convert_page, bind, lift, ret. rewrite Hindex.
    unfold HtmlGenerator.generate_markdown_from_data.
    replace (Py.len _ >? HtmlGenerator.MAX_CHARS) with true
      by (symmetry; apply Z.gtb_lt; lia).
    unfold ret, HtmlGenerator.generate_html_from_markdown,
      HtmlGenerator.chain_invoke.
    destruct (model t _); reflexivity.
Qed.

(** A page with a text of 15150 characters. *)
Lemma oversized_page_reaches_html_stage_witness :
  exists c,
    call_model c = gemini_2_0_flash
    /\ Main.convert_page Samples.echo_model 1
         [ {| PdfParser.PageText.page_number := 0;
              PdfParser.PageText.blocks :=
                [Samples.block Samples.long_text] |} ]
         [] [] [] 0 []
       = (Ok [("page-1.html", Main.Text "generated")], [ModelCall c]).
Proof.
  destruct (oversized_page_reaches_html_stage Samples.echo_model 1
              [ {| PdfParser.PageText.page_number := 0;
                   PdfParser.PageText.blocks :=
                     [Samples.block Samples.long_text] |} ]
              [] [] [] 0 []
              {| PdfParser.PageText.page_number := 0;
                 PdfParser.PageText.blocks :=
                   [Samples.block Samples.long_text] |})
    as (c & Hmodel & _ & _ & Hrun).
  - reflexivity.
  - vm_compute. reflexivity.
  - exists c. split; [exact Hmodel | exact Hrun].
Defined.

Lemma count_model_calls_snoc (t : trace) (c : model_call) :
  count_model_calls (t ++ [ModelCall c])%list = S (count_model_calls t).
Proof.
  unfold count_model_calls, model_calls.
  rewrite filter_app, length_app. cbn. lia.
Qed.

(** One page costs one call or two; a page that converts costs at least
    one. *)
Lemma convert_page_calls model total_pages all_text_data all_image_data
      all_table_data zip_file page_num t :
  let run := Main.convert_page model total_pages all_text_data
               all_image_data all_table_data zip_file page_num t in
  (count_model_calls t <= count_model_calls (snd run)
   <= count_model_calls t + 2)%nat
  /\ (forall zip_file', fst run = Ok zip_file' ->
                        (count_model_calls t + 1
                         <= count_model_calls (snd run))%nat).
Proof.
  cbv zeta. unfold Main.convert_page, bind, lift, ret.
  destruct (Main.index all_text_data page_num) as [entry|e];
    [|cbn [fst snd]; split; [lia | discriminate]].
  unfold HtmlGenerator.generate_markdown_from_data,
    HtmlGenerator.generate_html_from_markdown, HtmlGenerator.chain_invoke,
    ret.
  destruct (Py.len _ >? HtmlGenerator.MAX_CHARS).
  - destruct (model t _); cbn [fst snd];
      rewrite count_model_calls_snoc; split; try lia; discriminate.
  - destruct (model t _) as [markdown_content|e]; cbn [fst snd].
    + destruct (model _ _); cbn [fst snd];
        rewrite !count_model_calls_snoc; split; try lia; discriminate.
    + rewrite count_model_calls_snoc. split; [lia | discriminate].
Qed.

Lemma for_each_pages_calls model total_pages all_text_data all_image_data
      all_table_data (pages : list Z) zip_file t :
  let run := Main.for_each
               (Main.convert_page model total_pages all_text_data
                  all_image_data all_table_data) pages zip_file t in
  (count_model_calls (snd run)
   <= count_model_calls t + 2 * List.length pages)%nat
  /\ (forall zip_file', fst run = Ok zip_file' ->
                        (count_model_calls t + List.length pages
                         <= count_model_calls (snd run))%nat).
Proof.
  cbv zeta. revert zip_file t.
  induction pages as [|page_num pages IH]; intros zip_file t.
  - cbn [Main.for_each List.length fst snd]. unfold ret. cbn [fst snd].
    split; [lia|]. intros _ _. lia.
  - cbn [Main.for_each List.length]. unfold bind.
    pose proof (convert_page_calls model total_pages all_text_data
                  all_image_data all_table_data zip_file page_num t)
      as [Hbound Hok].
    cbv zeta in Hbound, Hok.
    destruct (Main.convert_page model total_pages all_text_data
                all_image_data all_table_data zip_file page_num t)
      as [[zip1|e] t1]; cbn [fst snd] in *.
    + specialize (Hok zip1 eq_refl).
      destruct (IH zip1 t1) as [IHbound IHok]. split; [lia|].
      intros zip_file' Hrun. specialize (IHok zip_file' Hrun). lia.
    + split; [lia | discriminate].
Qed.

(** X11: the conversion of a document of [n] pages makes at most [2 n]
    model calls, whether it succeeds or stops at a failure, and at least
    [n] when it succeeds: every page costs its HTML call, and its
    Markdown call unless it is over the budget. *)
Theorem build_archive_model_calls :
  forall model N all_text_data all_image_data all_table_data t,
    let run := Main.build_archive model N all_text_data all_image_data
                 all_table_data t in
    (count_model_calls (snd run)
     <= count_model_calls t + 2 * Z.to_nat N)%nat
    /\ (forall zip_file, fst run = Ok zip_file ->
                         (count_model_calls t + Z.to_nat N
                          <= count_model_calls (snd run))%nat).
Proof.
  intros model N all_text_data all_image_data all_table_data t. cbv zeta.
  unfold Main.build_archive, bind, ret.
  pose proof (for_each_pages_calls model N all_text_data all_image_data
                all_table_data (Py.range N) [] t) as [Hbound Hok].
  cbv zeta in Hbound, Hok.
  assert (Hlen : List.length (Py.range N) = Z.to_nat N)
    by (unfold Py.range; now rewrite length_map, length_seq).
  rewrite Hlen in Hbound, Hok.
  destruct (Main.for_each
              (Main.convert_page model N all_text_data all_image_data
                 all_table_data) (Py.range N) [] t) as [[zip1|e] t1];
    cbn [fst snd] in *.
  - split; [exact Hbound|]. intros zip_file _. exact (Hok zip1 eq_refl).
  - split; [exact Hbound | discriminate].
Qed.

(** Two short pages: four calls. *)
Lemma build_archive_model_calls_witness :
  count_model_calls
    (snd (Main.build_archive Samples.echo_model 2 Samples.two_pages_text
            Samples.two_images [] [])) = 4%nat
  /\ (0 + Z.to_nat 2
      <= count_model_calls
           (snd (Main.build_archive Samples.echo_model 2
                   Samples.two_pages_text Samples.two_images [] [])))%nat.
Proof.
  split; [reflexivity|].
  eapply (proj2 (build_archive_model_calls Samples.echo_model 2
                   Samples.two_pages_text Samples.two_images [] [])).
  reflexivity.
Defined.

(* ================================================================== *)
(** ** main.py and html_generator.py: what the pages refer to *)

Lemma page_entry_in_archive (N q : Z) :
  1 <= q <= N -> In (Main.page_entry_name q) (page_entry_names N).
Proof.
  intros Hq. unfold page_entry_names. apply in_map_iff.
  exists (q - 1). split; [f_equal; lia | apply in_range; lia].
Qed.

(** X12: the navigation of a page points into the archive: on page [p]
    of [N], every link of the footer is a link to [page-q.html] for a
    page [q] of the document other than [p], the name under which the
    endpoint writes page [q]; it is labelled Previous when [q] comes
    before [p], Next when it comes after. *)
Theorem navigation_links_resolve :
  forall p N link,
    1 <= p <= N ->
    In link (HtmlGenerator.nav_links p N) ->
    exists q,
      1 <= q <= N
      /\ (q = p - 1 \/ q = p + 1)
      /\ In (Main.page_entry_name q) (page_entry_names N)
      /\ link
         = "<a href=" ++ Py.dq ++ Main.page_entry_name q ++ Py.dq ++ ">"
           ++ (if q <? p then "Previous" else "Next") ++ "</a>".
Proof.
  intros p N link Hp Hin. unfold HtmlGenerator.nav_links in Hin.
  apply in_app_or in Hin. destruct Hin as [Hin|Hin].
  - destruct (Z.gtb_spec p 1) as [Hgt|Hle]; [|contradiction].
    destruct Hin as [<-|[]]. exists (p - 1).
    split; [lia|]. split; [now left|].
    split; [apply page_entry_in_archive; lia|].
    replace (p - 1 <? p) with true by (symmetry; apply Z.ltb_lt; lia).
    unfold HtmlGenerator.previous_link, Main.page_entry_name.
    now rewrite !append_assoc.
  - destruct (Z.ltb_spec p N) as [Hlt|Hge]; [|contradiction].
    destruct Hin as [<-|[]]. exists (p + 1).
    split; [lia|]. split; [now right|].
    split; [apply page_entry_in_archive; lia|].
    replace (p + 1 <? p) with false by (symmetry; apply Z.ltb_ge; lia).
    unfold HtmlGenerator.next_link, Main.page_entry_name.
    now rewrite !append_assoc.
Qed.

(** Page 2 of 3. *)
Lemma navigation_links_resolve_witness :
  exists q,
    In (Main.page_entry_name q) (page_entry_names 3)
    /\ HtmlGenerator.previous_link 2
       = "<a href=" ++ Py.dq ++ Main.page_entry_name q ++ Py.dq ++ ">"
         ++ (if q <? 2 then "Previous" else "Next") ++ "</a>".
Proof.
  destruct (navigation_links_resolve 2 3 (HtmlGenerator.previous_link 2))
    as (q & _ & _ & Hentry & Hlink).
  - lia.
  - cbn. now left.
  - exists q. split; [exact Hentry | exact Hlink].
Defined.

Lemma image_line_in_formatted_strings blocks images tables image :
  In image images ->
  In (HtmlGenerator.image_line image)
     (HtmlGenerator.formatted_strings blocks images tables).
Proof.
  intros Hin. unfold HtmlGenerator.formatted_strings.
  assert (Himages :
            In (HtmlGenerator.image_line image)
               (if Py.truthy images
                then List.app
                       ("**Text Elements:**"
                          :: map HtmlGenerator.text_line blocks)
                       ((Py.nl ++ "**Image Elements:**")
                          :: map HtmlGenerator.image_line images)
                else "**Text Elements:**"
                       :: map HtmlGenerator.text_line blocks)).
  { destruct images as [|i0 images]; [contradiction|]. cbn [Py.truthy].
    apply in_or_app. right. right. now apply in_map. }
  destruct (Py.truthy tables); [|exact Himages].
  apply in_or_app. now left.
Qed.

(** X13: every image in the bundle of a page has its entry
    [images/<name>] in the archive, once produced; and when the
    description of the page is within the budget, the first call made
    for the page, the one of the Markdown stage, names the file in its
    human message.  (Over the budget no call carries the
    description.) *)
Theorem described_images_are_packaged :
  forall model N all_text_data all_image_data all_table_data t zip_file t',
    Main.build_archive model N all_text_data all_image_data all_table_data t
    = (Ok zip_file, t') ->
    forall page_num entry image,
      Main.index all_text_data page_num = Ok entry ->
      In image (Main.page_image_data all_image_data page_num) ->
      In ("images/" ++ Image.name image) (Main.entry_names zip_file)
      /\ (Py.len (HtmlGenerator.format_data_for_llm
                    (PdfParser.PageText.blocks entry)
                    (Main.page_image_data all_image_data page_num)
                    (Main.page_tables all_table_data page_num))
          <= HtmlGenerator.MAX_CHARS ->
          forall zip0 t0,
          exists c rest,
            snd (Main.convert_page model N all_text_data all_image_data
                   all_table_data zip0 page_num t0)
            = (t0 ++ ModelCall c :: rest)%list
            /\ call_model c = gemini_2_0_flash_lite
            /\ Py.occurs_in
                 ("- Image Filename: " ++ Py.dq ++ Image.name image
                  ++ Py.dq)
                 (call_human c)).
Proof.
  intros model N all_text_data all_image_data all_table_data t zip_file t'
         Hrun page_num entry image Hindex Hin.
  split.
  - rewrite (proj1 (build_archive_entry_names _ _ _ _ _ _ _ _ Hrun)).
    apply in_or_app. right. right.
    apply filter_In in Hin. destruct Hin as [Hin _].
    exact (in_map Main.image_entry_name all_image_data image Hin).
  - intros Hfits zip0 t0.
    exists (markdown_call
              (HtmlGenerator.format_data_for_llm
                 (PdfParser.PageText.blocks entry)
                 (Main.page_image_data all_image_data page_num)
                 (Main.page_tables all_table_data page_num))).
    unfold Main.convert_page, bind, lift, ret. rewrite Hindex.
    unfold HtmlGenerator.generate_markdown_from_data.
    replace (Py.len _ >? HtmlGenerator.MAX_CHARS) with false
      by (symmetry; rewrite Z.gtb_ltb; apply Z.ltb_ge; lia).
    unfold HtmlGenerator.generate_html_from_markdown,
      HtmlGenerator.chain_invoke.
    fold (markdown_call
            (HtmlGenerator.format_data_for_llm
               (PdfParser.PageText.blocks entry)
               (Main.page_image_data all_image_data page_num)
               (Main.page_tables all_table_data page_num))).
    assert (Hnamed :
              Py.occurs_in
                ("- Image Filename: " ++ Py.dq ++ Image.name image ++ Py.dq)
                (call_human
                   (markdown_call
                      (HtmlGenerator.format_data_for_llm
                         (PdfParser.PageText.blocks entry)
                         (Main.page_image_data all_image_data page_num)
                         (Main.page_tables all_table_data page_num))))).
    { cbn [call_human markdown_call].
      do 3 apply occurs_in_append_r. apply occurs_in_join.
      now apply image_line_in_formatted_strings. }
    destruct (model t0 _) as [markdown_content|e].
    + destruct (model _ _) as [final_html|e]; cbn [snd];
        eexists; (split; [now rewrite <- app_assoc|]);
        (split; [reflexivity | exact Hnamed]).
    + cbn [snd]. exists []. split; [reflexivity|].
      split; [reflexivity | exact Hnamed].
Qed.

(** The two sample images; the second is on page 1, a short page. *)
Lemma described_images_are_packaged_witness :
  exists zip_file,
    fst (Main.build_archive Samples.echo_model 2 Samples.two_pages_text
           Samples.two_images [] []) = Ok zip_file
    /\ In "images/image_1_9.jpeg" (Main.entry_names zip_file)
    /\ exists c rest,
         snd (Main.convert_page Samples.echo_model 2 Samples.two_pages_text
                Samples.two_images [] [] 1 [])
         = ModelCall c :: rest
         /\ Py.occurs_in
              ("- Image Filename: " ++ Py.dq ++ "image_1_9.jpeg" ++ Py.dq)
              (call_human c).
Proof.
  eexists. split; [reflexivity|].
  destruct (described_images_are_packaged Samples.echo_model 2
              Samples.two_pages_text Samples.two_images [] [] _ _ eq_refl 1
              {| PdfParser.PageText.page_number := 1;
                 PdfParser.PageText.blocks := [Samples.block "Second page"] |}
              {| Image.name := "image_1_9.jpeg";
                 Image.bytes := [xff; xd8];
                 Image.page := 1 |})
    as [Hentry Hcall].
  - reflexivity.
  - cbn. now left.
  - split; [exact Hentry|].
    destruct (Hcall ltac:(vm_compute; discriminate) [] [])
      as (c & rest & Htrace & _ & Hnamed).
    exists c, rest. split; [exact Htrace | exact Hnamed].
Defined.

(* ================================================================== *)
(** ** What a computation can raise *)

Lemma raises_only_ret {A} (P : exn -> Prop) (a : A) : raises_only P (ret a).
Proof. intros t e t' H. discriminate H. Qed.

Lemma raises_only_emit (P : exn -> Prop) (ev : event) :
  raises_only P (emit ev).
Proof. intros t e t' H. discriminate H. Qed.

Lemma raises_only_raise {A} (P : exn -> Prop) (e : exn) :
  P e -> raises_only P (@raise A e).
Proof. intros He t e' t' H. injection H as <- _. exact He. Qed.

Lemma raises_only_lift {A} (P : exn -> Prop) (r : result A) :
  (forall e, r = Raise e -> P e) -> raises_only P (lift r).
Proof. intros Hr t e t' H. injection H as -> _. now apply Hr. Qed.

Lemma raises_only_bind {A B} (P : exn -> Prop) (m : M A) (k : A -> M B) :
  raises_only P m -> (forall a, raises_only P (k a)) ->
  raises_only P (bind m k).
Proof.
  intros Hm Hk t e t' H. unfold bind in H.
  destruct (m t) as [[a|e0] t0] eqn:Hrun.
  - exact (Hk a t0 e t' H).
  - injection H as <- _. exact (Hm t e0 t0 Hrun).
Qed.

Lemma raises_only_try_except {A} (P Q : exn -> Prop) (body : M A)
      (handler : exn -> M A) :
  raises_only Q body ->
  (forall e, Q e -> raises_only P (handler e)) ->
  raises_only P (try_except body handler).
Proof.
  intros Hbody Hh t e t' H. unfold try_except in H.
  destruct (body t) as [[a|e0] t0] eqn:Hrun; [discriminate H|].
  exact (Hh e0 (Hbody t e0 t0 Hrun) t0 e t' H).
Qed.

Lemma raises_only_of_answer {A} (a : answer A) :
  raises_only foreign (lift (of_answer a)).
Proof.
  apply raises_only_lift. intros e He.
  destruct a; [discriminate He | injection He as <-; reflexivity].
Qed.

Lemma raises_only_page_count (doc : Fitz.Document) :
  raises_only foreign (lift (Fitz.page_count doc)).
Proof.
  apply raises_only_lift. intros e He. unfold Fitz.page_count in He.
  destruct (Fitz.is_closed doc); [injection He as <-; reflexivity|].
  discriminate He.
Qed.

Ltac raises_step :=
  first
    [ apply raises_only_ret
    | apply raises_only_emit
    | apply raises_only_of_answer
    | apply raises_only_page_count
    | apply raises_only_bind; [|intros ?] ].

Lemma open_pdf_from_path_raises fitz_open file_path password :
  raises_only foreign
    (PdfParser.open_pdf_from_path fitz_open file_path password).
Proof.
  unfold PdfParser.open_pdf_from_path.
  apply raises_only_try_except with (Q := foreign).
  - repeat raises_step.
    destruct (Fitz.is_encrypted _); [|raises_step].
    destruct (_ =? 0); repeat raises_step.
  - intros e He. now apply raises_only_raise.
Qed.

Lemma extract_text_raises (doc : Fitz.Document) :
  raises_only foreign (PdfParser.extract_text_with_positions doc).
Proof. unfold PdfParser.extract_text_with_positions. repeat raises_step. Qed.

Lemma extract_tables_raises plumber_pages file_path :
  raises_only foreign
    (PdfParser.extract_tables_with_pdfplumber plumber_pages file_path).
Proof.
  unfold PdfParser.extract_tables_with_pdfplumber. repeat raises_step.
Qed.

Lemma fallback_raises pdfimages file_path :
  raises_only foreign
    (PdfParser._extract_images_with_fallback pdfimages file_path).
Proof.
  intros t e t' H.
  unfold PdfParser._extract_images_with_fallback, try_except, bind, emit,
    lift, ret, raise in H.
  destruct (pdfimages file_path); cbn in H; try discriminate H;
    injection H as <- _; reflexivity.
Qed.

Lemma extract_images_raises pdfimages (doc : Fitz.Document) :
  raises_only foreign (PdfParser.extract_images pdfimages doc).
Proof.
  unfold PdfParser.extract_images. repeat raises_step.
  destruct (negb _ && _); [apply fallback_raises | raises_step].
Qed.

Lemma chain_invoke_raises model (c : model_call) :
  foreign_model model ->
  raises_only foreign (HtmlGenerator.chain_invoke model c).
Proof.
  intros Hmodel t e t' H. unfold HtmlGenerator.chain_invoke in H.
  injection H as H _. exact (Hmodel t c e H).
Qed.

Lemma convert_page_raises model total_pages all_text_data all_image_data
      all_table_data zip_file page_num :
  foreign_model model ->
  raises_only foreign
    (Main.convert_page model total_pages all_text_data all_image_data
       all_table_data zip_file page_num).
Proof.
  intros Hmodel. unfold Main.convert_page.
  apply raises_only_bind; [|intros entry].
  - apply raises_only_lift. intros e He. unfold Main.index in He.
    destruct (nth_error _ _); [discriminate He|].
    injection He as <-. reflexivity.
  - apply raises_only_bind; [|intros markdown_content].
    + unfold HtmlGenerator.generate_markdown_from_data.
      destruct (_ >? _); [raises_step | now apply chain_invoke_raises].
    + apply raises_only_bind; [|intros final_html; raises_step].
      now apply chain_invoke_raises.
Qed.

Lemma build_archive_raises model total_pages all_text_data all_image_data
      all_table_data :
  foreign_model model ->
  raises_only foreign
    (Main.build_archive model total_pages all_text_data all_image_data
       all_table_data).
Proof.
  intros Hmodel. unfold Main.build_archive.
  apply raises_only_bind; [|intros zip_file; raises_step].
  generalize (@nil (string * Main.payload)).
  induction (Py.range total_pages) as [|page_num pages IH]; intros zip_file.
  - cbn [Main.for_each]. raises_step.
  - cbn [Main.for_each]. apply raises_only_bind; [|intros zip1; apply IH].
    now apply convert_page_raises.
Qed.

Lemma process_raises model plumber_parse pdfimages temp_file_path
      splitext_root file doc :
  foreign_model model ->
  raises_only foreign
    (Main.process model plumber_parse pdfimages temp_file_path splitext_root
       file doc).
Proof.
  intros Hmodel. unfold Main.process.
  raises_step; [raises_step|].
  raises_step; [apply extract_text_raises|].
  raises_step; [apply extract_images_raises|].
  raises_step; [apply extract_tables_raises|].
  raises_step; [now apply build_archive_raises|].
  raises_step.
  - apply raises_only_lift. intros e He. unfold Main.download_filename in He.
    destruct (Main.filename file); [discriminate He|].
    injection He as <-. reflexivity.
  - cbv zeta. destruct (Py.latin1_encodable _); [raises_step|].
    now apply raises_only_raise.
Qed.

(* ================================================================== *)
(** ** main.py: the answers of the application *)

(** The [finally] clause raises at most the library's complaint about a
    closed document. *)
Lemma cleanup_raises temp_file_path (doc : option Fitz.Document) :
  raises_only (fun e => e = LibraryError "document closed")
              (Main.cleanup temp_file_path doc).
Proof.
  intros t e t' H.
  unfold Main.cleanup, bind, lift, ret, emit, Fitz.truth, Fitz.page_count
    in H.
  destruct doc as [d|]; [|discriminate H].
  destruct (Fitz.is_closed d); [now injection H as <- _|].
  destruct (negb _); discriminate H.
Qed.

(** The [try] statement of the endpoint around a body that raises no
    class of [exceptions.py]. *)
Lemma guarded_body_outcomes temp_file_path (body : M Main.Response)
      (doc : option Fitz.Document) (t : trace) :
  raises_only foreign body ->
  match fst (try_finally (try_except body Main.on_exception)
                         (Main.cleanup temp_file_path doc) t) with
  | Ok response => exists t0, body t = (Ok response, t0)
  | Raise e =>
      e = HTTPException 500 "An internal server error occurred."
      \/ e = LibraryError "document closed"
  end.
Proof.
  intros Hbody. unfold try_finally, try_except.
  destruct (body t) as [[response|e] t0] eqn:Hrun.
  - destruct (Main.cleanup temp_file_path doc t0) as [[u|e] t1] eqn:Hclean;
      cbn [fst].
    + now exists t0.
    + right. exact (cleanup_raises _ _ _ _ _ Hclean).
  - pose proof (Hbody t e t0 Hrun) as Hforeign.
    rewrite on_exception_cases.
    destruct e; try discriminate Hforeign;
      (destruct (Main.cleanup temp_file_path doc t0) as [[u|e'] t1]
         eqn:Hclean; cbn [fst];
       [now left | right; exact (cleanup_raises _ _ _ _ _ Hclean)]).
Qed.

Lemma process_returns_archive model plumber_parse pdfimages temp_file_path
      splitext_root file doc t response t' :
  Main.process model plumber_parse pdfimages temp_file_path splitext_root
    file doc t = (Ok response, t') ->
  exists zip_buffer content_disposition,
    response
    = Main.StreamingResponse zip_buffer "application/zip" content_disposition.
Proof.
  intros H.
  destruct (process_archive_entries _ _ _ _ _ _ _ _ _ _ H)
    as (zip_buffer & cd & _ & _ & -> & _).
  now exists zip_buffer, cd.
Qed.

(** How the endpoint can end. *)
Lemma endpoint_outcomes model fitz_parse plumber_parse pdfimages
      temp_file_path splitext_root file t :
  foreign_model model ->
  match fst (Main.convert_pdf_to_html model fitz_parse plumber_parse
               pdfimages temp_file_path splitext_root file t) with
  | Ok response =>
      Main.content_type file = Some "application/pdf"
      /\ Z.of_nat (List.length (Main.body file)) <= Main.MAX_FILE_SIZE
      /\ exists zip_buffer content_disposition,
           response
           = Main.StreamingResponse zip_buffer "application/zip"
               content_disposition
  | Raise e =>
      (e = HTTPException 400 "Invalid file type."
       /\ Main.content_type file <> Some "application/pdf")
      \/ (e = HTTPException 413 "File size exceeds limit."
          /\ Main.content_type file = Some "application/pdf"
          /\ Z.of_nat (List.length (Main.body file)) > Main.MAX_FILE_SIZE)
      \/ ((e = HTTPException 500 "An internal server error occurred."
           \/ e = LibraryError "document closed")
          /\ Main.content_type file = Some "application/pdf"
          /\ Z.of_nat (List.length (Main.body file)) <= Main.MAX_FILE_SIZE)
  end.
Proof.
  intros Hmodel. unfold Main.convert_pdf_to_html.
  destruct (Main.content_type file) as [ct|];
    [|left; split; [reflexivity | discriminate]].
  destruct (String.eqb_spec ct "application/pdf") as [->|Hne];
    [|left; split; [reflexivity | congruence]].
  cbn [negb]. unfold bind at 1. unfold emit at 1.
  destruct (Z.gtb_spec (Z.of_nat (List.length (Main.body file)))
                       Main.MAX_FILE_SIZE) as [Hbig|Hfits].
  - right. left. unfold raise. cbn [fst].
    split; [reflexivity|]. split; [reflexivity | lia].
  - unfold bind at 1. unfold emit at 1. unfold bind at 1.
    unfold Main.attempt at 1.
    destruct (PdfParser.open_pdf_from_path _ temp_file_path None _)
      as [opened t1] eqn:Hopen.
    match goal with
    | |- match fst (try_finally (try_except ?body _) (Main.cleanup _ ?d) ?t0)
         with _ => _ end =>
        pose proof (guarded_body_outcomes temp_file_path body d t0) as Hout;
        destruct (fst (try_finally (try_except body Main.on_exception)
                                   (Main.cleanup temp_file_path d) t0))
          as [response|e]
    end.
    + assert (Hbody : exists t0,
                 bind (lift opened)
                      (fun doc =>
                         Main.process model plumber_parse pdfimages
                           temp_file_path splitext_root file doc) t1
                 = (Ok response, t0)).
      { apply Hout. apply raises_only_bind.
        - apply raises_only_lift. intros e ->.
          exact (open_pdf_from_path_raises _ _ _ _ _ _ Hopen).
        - intros doc. now apply process_raises. }
      destruct Hbody as [t0 Hbody]. unfold bind, lift in Hbody.
      destruct opened as [doc|e]; [|discriminate Hbody].
      split; [reflexivity|]. split; [lia|].
      exact (process_returns_archive _ _ _ _ _ _ _ _ _ _ Hbody).
    + right. right. split; [|split; [reflexivity | lia]].
      apply Hout. apply raises_only_bind.
      * apply raises_only_lift. intros e0 ->.
        exact (open_pdf_from_path_raises _ _ _ _ _ _ Hopen).
      * intros doc. now apply process_raises.
Qed.

(** X14: the application answers a request with the archive or with
    one of five fixed JSON bodies (the two rejections of the upload and
    the two forms of the 500); no text of an exception and no output of
    the model reaches an error answer, and the structured 400 of
    [pdf_processing_exception_handler] is never sent, the model service
    raising exceptions of its own only. *)
Theorem answers_are_fixed_or_archive :
  forall model fitz_parse plumber_parse pdfimages temp_file_path
         splitext_root file t,
    foreign_model model ->
    In (fst (Main.respond model fitz_parse plumber_parse pdfimages
               temp_file_path splitext_root file t))
       fixed_answers
    \/ exists zip_buffer content_disposition,
        fst (Main.respond model fitz_parse plumber_parse pdfimages
               temp_file_path splitext_root file t)
        = Main.StreamingResponse zip_buffer "application/zip"
            content_disposition.
Proof.
  intros model fitz_parse plumber_parse pdfimages temp_file_path
         splitext_root file t Hmodel.
  pose proof (endpoint_outcomes model fitz_parse plumber_parse pdfimages
                temp_file_path splitext_root file t Hmodel) as Hout.
  unfold Main.respond.
  destruct (Main.convert_pdf_to_html model fitz_parse plumber_parse
              pdfimages temp_file_path splitext_root file t)
    as [[response|e] t'].
  - right. cbn [fst] in *. exact (proj2 (proj2 Hout)).
  - left. cbn [fst] in Hout.
    destruct Hout as [[-> _] | [[-> _] | [[-> | ->] _]]]; cbn; auto.
Qed.

(** The sample model and an upload that is refused. *)
Lemma answers_are_fixed_or_archive_witness :
  In (fst (Main.respond Samples.echo_model
             (fun _ => inl Samples.one_page_doc) (fun _ => inl [ [] ])
             (fun _ => PdfParser.NoSuchExecutable) "/tmp/upload.pdf"
             Samples.splitext_root Samples.text_upload []))
     fixed_answers
  \/ exists zip_buffer content_disposition,
      fst (Main.respond Samples.echo_model
             (fun _ => inl Samples.one_page_doc) (fun _ => inl [ [] ])
             (fun _ => PdfParser.NoSuchExecutable) "/tmp/upload.pdf"
             Samples.splitext_root Samples.text_upload [])
      = Main.StreamingResponse zip_buffer "application/zip"
          content_disposition.
Proof.
  apply (answers_are_fixed_or_archive Samples.echo_model
           (fun _ => inl Samples.one_page_doc) (fun _ => inl [ [] ])
           (fun _ => PdfParser.NoSuchExecutable) "/tmp/upload.pdf"
           Samples.splitext_root Samples.text_upload []).
  intros t c e H. discriminate H.
Defined.

(** X15: an upload declared [application/pdf] of at most 50 MiB, 50 MiB
    exactly included, is never answered with a client error: the answer
    is the archive (200) or a 500. *)
Theorem accepted_upload_is_no_client_error :
  forall model fitz_parse plumber_parse pdfimages temp_file_path
         splitext_root file t,
    foreign_model model ->
    Main.content_type file = Some "application/pdf" ->
    Z.of_nat (List.length (Main.body file)) <= 52428800 ->
    Main.status_of (fst (Main.respond model fitz_parse plumber_parse
                           pdfimages temp_file_path splitext_root file t))
    = 200
    \/ Main.status_of (fst (Main.respond model fitz_parse plumber_parse
                              pdfimages temp_file_path splitext_root file t))
       = 500.
Proof.
  intros model fitz_parse plumber_parse pdfimages temp_file_path
         splitext_root file t Hmodel Hct Hsize.
  pose proof (endpoint_outcomes model fitz_parse plumber_parse pdfimages
                temp_file_path splitext_root file t Hmodel) as Hout.
  unfold Main.respond.
  destruct (Main.convert_pdf_to_html model fitz_parse plumber_parse
              pdfimages temp_file_path splitext_root file t)
    as [[response|e] t'].
  - left. cbn [fst] in *.
    destruct Hout as (_ & _ & zip_buffer & cd & ->). reflexivity.
  - right. cbn [fst] in Hout.
    destruct Hout as [[_ Hbad] | [(_ & _ & Hbig) | [[-> | ->] _]]].
    + now elim Hbad.
    + unfold Main.MAX_FILE_SIZE in Hbig. lia.
    + reflexivity.
    + reflexivity.
Qed.

(** An upload of exactly 50 MiB. *)
Lemma accepted_upload_is_no_client_error_witness :
  Main.status_of
    (fst (Main.respond Samples.echo_model
            (fun _ => inr "Failed to open file") (fun _ => inl [ [] ])
            (fun _ => PdfParser.NoSuchExecutable) "/tmp/upload.pdf"
            Samples.splitext_root
            (Samples.pdf_upload (repeat x00 (Z.to_nat 52428800))) []))
  = 200
  \/ Main.status_of
       (fst (Main.respond Samples.echo_model
               (fun _ => inr "Failed to open file") (fun _ => inl [ [] ])
               (fun _ => PdfParser.NoSuchExecutable) "/tmp/upload.pdf"
               Samples.splitext_root
               (Samples.pdf_upload (repeat x00 (Z.to_nat 52428800))) []))
     = 500.
Proof.
  apply (accepted_upload_is_no_client_error Samples.echo_model
           (fun _ => inr "Failed to open file") (fun _ => inl [ [] ])
           (fun _ => PdfParser.NoSuchExecutable) "/tmp/upload.pdf"
           Samples.splitext_root
           (Samples.pdf_upload (repeat x00 (Z.to_nat 52428800))) []).
  - intros t c e H. discriminate H.
  - reflexivity.
  - unfold Samples.pdf_upload. cbn [Main.body].
    rewrite repeat_length, Z2Nat.id; lia.
Defined.

(* ================================================================== *)
(** ** main.py: the handle and the temporary file *)

Lemma cleanup_open temp_file_path (doc : Fitz.Document) (t : trace) :
  Fitz.is_closed doc = false ->
  Main.cleanup temp_file_path (Some doc) t
  = (Ok tt,
     (t ++ (if Fitz.num_pages doc =? 0 then [] else [CloseDocument])
        ++ [RemoveTempFile temp_file_path])%list).
Proof.
  intros Hopen.
  unfold Main.cleanup, bind, lift, ret, emit, Fitz.truth, Fitz.page_count.
  rewrite Hopen. destruct (Fitz.num_pages doc =? 0); cbn [negb].
  - reflexivity.
  - now rewrite <- app_assoc.
Qed.

Lemma open_pdf_from_path_kept fitz_open file_path password doc t :
  fitz_open file_path = inl doc ->
  Fitz.is_encrypted doc
  && (Fitz.authenticate doc (PdfParser.password_or_empty password) =? 0)
  = false ->
  PdfParser.open_pdf_from_path fitz_open file_path password t
  = (Ok doc, (t ++ [OpenDocument file_path])%list).
Proof.
  intros Hopen Hkept.
  unfold PdfParser.open_pdf_from_path, try_except, bind, emit, lift, ret.
  rewrite Hopen. cbn [of_answer].
  destruct (Fitz.is_encrypted doc); [|reflexivity].
  destruct (_ =? 0); [discriminate Hkept | reflexivity].
Qed.

Lemma open_pdf_from_path_refused fitz_open file_path password doc t :
  fitz_open file_path = inl doc ->
  Fitz.is_encrypted doc = true ->
  Fitz.authenticate doc (PdfParser.password_or_empty password) = 0 ->
  PdfParser.open_pdf_from_path fitz_open file_path password t
  = (Ok (Fitz.close doc),
     (t ++ [OpenDocument file_path; CloseDocument])%list).
Proof.
  intros Hopen Henc Hauth.
  unfold PdfParser.open_pdf_from_path, try_except, bind, emit, lift, ret.
  rewrite Hopen. cbn [of_answer]. rewrite Henc, Hauth. cbn.
  now rewrite <- app_assoc.
Qed.

(** X17: an accepted upload of an encrypted document that refuses the
    empty password is answered with the 500 of the middleware, after the
    upload was read, written to the temporary file, opened and closed
    again, and nothing else: no table extraction, no model call; the
    [finally] clause fails on the closed handle before it reaches the
    removal, so the temporary file stays. *)
Theorem refused_password_leaves_temp_file :
  forall model fitz_parse plumber_parse pdfimages temp_file_path
         splitext_root file t doc,
    Main.content_type file = Some "application/pdf" ->
    Z.of_nat (List.length (Main.body file)) <= 52428800 ->
    fitz_parse (Main.body file) = inl doc ->
    Fitz.is_encrypted doc = true ->
    Fitz.authenticate doc EmptyString = 0 ->
    Main.respond model fitz_parse plumber_parse pdfimages temp_file_path
      splitext_root file t
    = (Main.JSONResponse 500
         (Main.JObject
            [("message", Main.JString "An internal server error occurred.")]),
       (t ++ [ReadUpload; WriteTempFile temp_file_path;
              OpenDocument temp_file_path; CloseDocument])%list).
Proof.
  intros model fitz_parse plumber_parse pdfimages temp_file_path
         splitext_root file t doc Hct Hsize Hparse Henc Hauth.
  unfold Main.respond, Main.convert_pdf_to_html.
  rewrite Hct. cbn [String.eqb Ascii.eqb Bool.eqb negb].
  unfold bind at 1. unfold emit at 1.
  replace (Z.of_nat (List.length (Main.body file)) >? Main.MAX_FILE_SIZE)
    with false
    by (symmetry; rewrite Z.gtb_ltb; apply Z.ltb_ge;
        unfold Main.MAX_FILE_SIZE; lia).
  unfold bind at 1. unfold emit at 1. unfold bind at 1.
  unfold Main.attempt at 1.
  rewrite (open_pdf_from_path_refused
             (fun _ => fitz_parse (Main.body file)) temp_file_path None doc
             _ Hparse Henc Hauth).
  cbn. now rewrite <- !app_assoc.
Qed.

(** The sample encrypted document. *)
Lemma refused_password_leaves_temp_file_witness :
  Main.respond Samples.echo_model (fun _ => inl Samples.encrypted_doc)
    (fun _ => inl [ [] ]) (fun _ => PdfParser.NoSuchExecutable)
    "/tmp/upload.pdf" Samples.splitext_root
    (Samples.pdf_upload [x25; x50]) []
  = (Main.JSONResponse 500
       (Main.JObject
          [("message", Main.JString "An internal server error occurred.")]),
     [ReadUpload; WriteTempFile "/tmp/upload.pdf";
      OpenDocument "/tmp/upload.pdf"; CloseDocument]).
Proof.
  apply (refused_password_leaves_temp_file Samples.echo_model
           (fun _ => inl Samples.encrypted_doc) (fun _ => inl [ [] ])
           (fun _ => PdfParser.NoSuchExecutable) "/tmp/upload.pdf"
           Samples.splitext_root (Samples.pdf_upload [x25; x50]) []
           Samples.encrypted_doc);
    try reflexivity.
  cbn. lia.
Defined.

Lemma range_empty (n : Z) : n <= 0 -> Py.range n = [].
Proof.
  intros Hn. unfold Py.range.
  replace (Z.to_nat n) with 0%nat by lia. reflexivity.
Qed.

(** X18: an accepted upload of a document without pages, under a
    file name whose root is within Latin-1, is answered with an archive
    that holds the stylesheet and nothing else, named after the upload;
    no model call is made and the tool is not run; the temporary file is
    removed, and the handle is left unclosed. *)
Theorem empty_document_gives_stylesheet_only :
  forall model fitz_parse plumber_parse pdfimages temp_file_path
         splitext_root file t doc pages name,
    Main.content_type file = Some "application/pdf" ->
    Z.of_nat (List.length (Main.body file)) <= 52428800 ->
    Main.filename file = Some name ->
    Py.latin1_encodable (splitext_root name) = true ->
    fitz_parse (Main.body file) = inl doc ->
    Fitz.is_closed doc = false ->
    Fitz.is_encrypted doc = false ->
    Fitz.num_pages doc = 0 ->
    plumber_parse (Main.body file) = inl pages ->
    Main.respond model fitz_parse plumber_parse pdfimages temp_file_path
      splitext_root file t
    = (Main.StreamingResponse
         [("style.css",
           Main.Text
             "body { font-family: sans-serif; color: #333; margin: 2em; }")]
         "application/zip"
         ("attachment; filename=converted_" ++ splitext_root name ++ ".zip"),
       (t ++ [ReadUpload; WriteTempFile temp_file_path;
              OpenDocument temp_file_path; OpenPlumber temp_file_path;
              RemoveTempFile temp_file_path])%list).
Proof.
  intros model fitz_parse plumber_parse pdfimages temp_file_path
         splitext_root file t doc pages name Hct Hsize Hname Hlatin Hparse
         Hopen Henc Hpages Hplumber.
  unfold Main.respond, Main.convert_pdf_to_html.
  rewrite Hct. cbn [String.eqb Ascii.eqb Bool.eqb negb].
  unfold bind at 1. unfold emit at 1.
  replace (Z.of_nat (List.length (Main.body file)) >? Main.MAX_FILE_SIZE)
    with false
    by (symmetry; rewrite Z.gtb_ltb; apply Z.ltb_ge;
        unfold Main.MAX_FILE_SIZE; lia).
  unfold bind at 1. unfold emit at 1. unfold bind at 1.
  unfold Main.attempt at 1.
  rewrite (open_pdf_from_path_kept
             (fun _ => fitz_parse (Main.body file)) temp_file_path None doc
             _ Hparse) by (now rewrite Henc).
  unfold try_finally, try_except, bind, lift, Main.process,
    PdfParser.extract_text_with_positions, PdfParser.extract_images,
    PdfParser.extract_tables_with_pdfplumber, Main.build_archive,
    Main.download_filename, Main.cleanup, Fitz.truth, Fitz.page_count,
    bind, lift, ret, emit.
  rewrite Hopen, Hpages, Hplumber, Hname.
  cbv zeta.
  rewrite (content_disposition_encodable _ Hlatin).
  cbn. now rewrite <- !app_assoc.
Qed.

(** The sample document without pages. *)
Lemma empty_document_gives_stylesheet_only_witness :
  Main.respond Samples.echo_model (fun _ => inl Samples.empty_doc)
    (fun _ => inl []) (fun _ => PdfParser.NoSuchExecutable)
    "/tmp/upload.pdf" Samples.splitext_root
    (Samples.pdf_upload [x25; x50]) []
  = (Main.StreamingResponse
       [("style.css",
         Main.Text
           "body { font-family: sans-serif; color: #333; margin: 2em; }")]
       "application/zip" "attachment; filename=converted_report.zip",
     [ReadUpload; WriteTempFile "/tmp/upload.pdf";
      OpenDocument "/tmp/upload.pdf"; OpenPlumber "/tmp/upload.pdf";
      RemoveTempFile "/tmp/upload.pdf"]).
Proof.
  apply (empty_document_gives_stylesheet_only Samples.echo_model
           (fun _ => inl Samples.empty_doc) (fun _ => inl [])
           (fun _ => PdfParser.NoSuchExecutable) "/tmp/upload.pdf"
           Samples.splitext_root (Samples.pdf_upload [x25; x50]) []
           Samples.empty_doc [] "report.pdf");
    try reflexivity.
  cbn. lia.
Defined.

(* ================================================================== *)
(** ** main.py: when the conversion succeeds *)

Lemma extract_images_returns pdfimages (doc : Fitz.Document) (t : trace) :
  Fitz.is_closed doc = false ->
  ends_quietly (pdfimages (Fitz.name doc)) ->
  exists all_image_data t',
    PdfParser.extract_images pdfimages doc t = (Ok all_image_data, t').
Proof.
  intros Hopen Htool.
  rewrite extract_images_fallback_condition by exact Hopen.
  destruct (negb _ && _); [|do 2 eexists; reflexivity].
  unfold PdfParser._extract_images_with_fallback, try_except, bind, emit,
    lift, ret.
  destruct (pdfimages (Fitz.name doc)); cbn;
    try (do 2 eexists; reflexivity); contradiction.
Qed.

Lemma process_succeeds model plumber_parse pdfimages temp_file_path
      splitext_root file doc pages name t :
  Main.filename file = Some name ->
  Py.latin1_encodable (splitext_root name) = true ->
  Fitz.is_closed doc = false ->
  plumber_parse (Main.body file) = inl pages ->
  ends_quietly (pdfimages (Fitz.name doc)) ->
  (forall t c, exists s, model t c = Ok s) ->
  exists zip_buffer t',
    Main.process model plumber_parse pdfimages temp_file_path splitext_root
      file doc t
    = (Ok (Main.StreamingResponse zip_buffer "application/zip"
             ("attachment; filename=converted_" ++ splitext_root name
              ++ ".zip")),
       t').
Proof.
  intros Hname Hlatin Hopen Hplumber Htool Hmodel.
  unfold Main.process, bind, lift, ret.
  unfold PdfParser.extract_text_with_positions, bind, lift, ret.
  unfold Fitz.page_count at 1 2. rewrite Hopen.
  destruct (extract_images_returns pdfimages doc t Hopen Htool)
    as (all_image_data & t1 & ->).
  unfold PdfParser.extract_tables_with_pdfplumber, bind, emit, lift, ret.
  rewrite Hplumber. cbn [of_answer].
  match goal with
  | |- context [Main.build_archive model ?n ?txt ?img ?tbl ?t0] =>
      assert (Hzip : exists zip_buffer t2,
                 Main.build_archive model n txt img tbl t0
                 = (Ok zip_buffer, t2))
  end.
  { unfold Main.build_archive, bind, ret.
    match goal with
    | |- context [Main.for_each ?step ?pages0 ?acc ?t0] =>
        destruct (for_each_pages_succeeds model (Fitz.num_pages doc)
                    (map (fun page_num =>
                            {| PdfParser.PageText.page_number := page_num;
                               PdfParser.PageText.blocks :=
                                 PdfParser.page_text_blocks
                                   (Fitz.get_text_blocks doc page_num) |})
                         (Py.range (Fitz.num_pages doc)))
                    all_image_data
                    (flat_map PdfParser.tables_entry (Py.enumerate pages))
                    (Py.range (Fitz.num_pages doc)) [] t0 Hmodel)
          as (zip1 & t2 & Hloop)
    end.
    - intros page_num Hin. apply in_range in Hin. eexists.
      now apply index_range.
    - rewrite Hloop. do 2 eexists. reflexivity. }
  destruct Hzip as (zip_buffer & t2 & ->).
  unfold Main.download_filename. rewrite Hname. cbv zeta.
  rewrite (content_disposition_encodable _ Hlatin).
  do 2 eexists. reflexivity.
Qed.

(** X19: the conversion succeeds whenever nothing outside fails: for
    an accepted upload under a file name whose root is within Latin-1, of
    a document that opens without a password, with the table library
    answering, the tool ending with a result, a non-zero status or for
    want of the executable (not out of time, not with another error of
    the launch), and the model answering every call, the endpoint returns
    the archive, named [converted_<root>.zip], whose entries are the
    pages of the document, the stylesheet and what [extract_images]
    returned. *)
Theorem conversion_succeeds :
  forall model fitz_parse plumber_parse pdfimages temp_file_path
         splitext_root file t doc pages name,
    Main.content_type file = Some "application/pdf" ->
    Z.of_nat (List.length (Main.body file)) <= 52428800 ->
    Main.filename file = Some name ->
    Py.latin1_encodable (splitext_root name) = true ->
    fitz_parse (Main.body file) = inl doc ->
    Fitz.is_closed doc = false ->
    Fitz.is_encrypted doc = false ->
    plumber_parse (Main.body file) = inl pages ->
    ends_quietly (pdfimages (Fitz.name doc)) ->
    (forall t c, exists s, model t c = Ok s) ->
    exists zip_buffer all_image_data,
      fst (Main.respond model fitz_parse plumber_parse pdfimages
             temp_file_path splitext_root file t)
      = Main.StreamingResponse zip_buffer "application/zip"
          ("attachment; filename=converted_" ++ splitext_root name ++ ".zip")
      /\ Main.entry_names zip_buffer
         = (page_entry_names (Fitz.num_pages doc)
              ++ "style.css"
              :: map Main.image_entry_name all_image_data)%list
      /\ exists t0 t1,
           PdfParser.extract_images pdfimages doc t0
           = (Ok all_image_data, t1).
Proof.
  intros model fitz_parse plumber_parse pdfimages temp_file_path
         splitext_root file t doc pages name Hct Hsize Hname Hlatin Hparse
         Hopen Henc Hplumber Htool Hmodel.
  unfold Main.respond, Main.convert_pdf_to_html.
  rewrite Hct. cbn [String.eqb Ascii.eqb Bool.eqb negb].
  unfold bind at 1. unfold emit at 1.
  replace (Z.of_nat (List.length (Main.body file)) >? Main.MAX_FILE_SIZE)
    with false
    by (symmetry; rewrite Z.gtb_ltb; apply Z.ltb_ge;
        unfold Main.MAX_FILE_SIZE; lia).
  unfold bind at 1. unfold emit at 1. unfold bind at 1.
  unfold Main.attempt at 1.
  rewrite (open_pdf_from_path_kept
             (fun _ => fitz_parse (Main.body file)) temp_file_path None doc
             _ Hparse) by (now rewrite Henc).
  unfold try_finally, try_except. unfold bind at 1. unfold lift at 1.
  match goal with
  | |- context [Main.process _ _ _ _ _ _ _ ?t0] =>
      destruct (process_succeeds model plumber_parse pdfimages
                  temp_file_path splitext_root file doc pages name t0
                  Hname Hlatin Hopen Hplumber Htool Hmodel)
        as (zip_buffer & t1 & Hrun);
      destruct (process_archive_entries _ _ _ _ _ _ _ _ _ _ Hrun)
        as (zip' & cd & all_image_data & t2 & Hresp & Himages & Hnames)
  end.
  rewrite Hrun. rewrite cleanup_open by exact Hopen. cbn [fst].
  injection Hresp as <- _.
  exists zip_buffer, all_image_data.
  split; [reflexivity|]. split; [exact Hnames|]. eauto.
Qed.

(** The sample document of two pages. *)
Lemma conversion_succeeds_witness :
  exists zip_buffer,
    fst (Main.respond Samples.echo_model
           (fun _ => inl Samples.two_pages_doc) (fun _ => inl [ []; [] ])
           (fun _ => PdfParser.NoSuchExecutable) "/tmp/upload.pdf"
           Samples.splitext_root (Samples.pdf_upload [x25; x50]) [])
    = Main.StreamingResponse zip_buffer "application/zip"
        "attachment; filename=converted_report.zip"
    /\ Main.entry_names zip_buffer
       = ["page-1.html"; "page-2.html"; "style.css";
          "images/image_0_7.png"; "images/image_1_9.jpeg"].
Proof.
  destruct (conversion_succeeds Samples.echo_model
              (fun _ => inl Samples.two_pages_doc) (fun _ => inl [ []; [] ])
              (fun _ => PdfParser.NoSuchExecutable) "/tmp/upload.pdf"
              Samples.splitext_root (Samples.pdf_upload [x25; x50]) []
              Samples.two_pages_doc [ []; [] ] "report.pdf")
    as (zip_buffer & all_image_data & Hresp & Hnames & _);
    try reflexivity; try exact I.
  - cbn. lia.
  - intros t c. now exists "generated".
  - exists zip_buffer. split; [exact Hresp|].
    cbn in Hresp. injection Hresp as <-. reflexivity.
Defined.

(* ================================================================== *)
(** ** The tool, the budget and the two stages once more *)

(** X20: on an open document [extract_images] starts the tool at most
    once, on the path of the document, and exactly when the primary path
    found no image in a document with at least one page; otherwise it
    leaves no trace. *)
Theorem tool_runs_only_without_images :
  forall pdfimages doc t,
    Fitz.is_closed doc = false ->
    snd (PdfParser.extract_images pdfimages doc t)
    = match flat_map (PdfParser.page_images doc)
                     (Py.range (Fitz.num_pages doc)) with
      | [] => if Fitz.num_pages doc >? 0
              then (t ++ [RunPdfimages (Fitz.name doc)])%list
              else t
      | _ :: _ => t
      end.
Proof.
  intros pdfimages doc t Hopen.
  rewrite extract_images_fallback_condition by exact Hopen.
  destruct (flat_map (PdfParser.page_images doc)
                     (Py.range (Fitz.num_pages doc))); cbn [Py.truthy negb andb];
    [|reflexivity].
  destruct (Fitz.num_pages doc >? 0); [|reflexivity].
  apply fallback_runs_tool_once.
Qed.

(** A document with images, and one without. *)
Lemma tool_runs_only_without_images_witness :
  snd (PdfParser.extract_images (fun _ => PdfParser.TimedOut)
         Samples.two_pages_doc []) = []
  /\ snd (PdfParser.extract_images (fun _ => PdfParser.TimedOut)
            Samples.text_only_doc [])
     = [RunPdfimages "/tmp/upload.pdf"].
Proof.
  split.
  - rewrite (tool_runs_only_without_images (fun _ => PdfParser.TimedOut)
               Samples.two_pages_doc [] eq_refl).
    reflexivity.
  - rewrite (tool_runs_only_without_images (fun _ => PdfParser.TimedOut)
               Samples.text_only_doc [] eq_refl).
    reflexivity.
Defined.

Lemma total_length_app (a b : list string) :
  total_length (a ++ b) = (total_length a + total_length b)%nat.
Proof.
  induction a as [|x a IH]; cbn [List.app total_length]; [reflexivity|].
  rewrite IH. lia.
Qed.

Lemma total_length_join (sep : string) (l : list string) :
  (total_length l <= Py.code_points (Py.join sep l))%nat.
Proof.
  induction l as [|x l IH]; [cbn; lia|].
  rewrite join_cons. cbn [total_length].
  destruct l as [|y l]; [cbn [total_length]; lia|].
  rewrite !code_points_append. lia.
Qed.

Lemma total_length_text_lines (blocks : list TextBlock.t) :
  (total_length (map TextBlock.text blocks)
   <= total_length (map HtmlGenerator.text_line blocks))%nat.
Proof.
  induction blocks as [|b blocks IH]; [reflexivity|].
  cbn [map total_length]. unfold HtmlGenerator.text_line at 1.
  rewrite !code_points_append. lia.
Qed.

(** The description is at least as long as the texts it describes. *)
Lemma description_holds_the_texts blocks images tables :
  (total_length (map TextBlock.text blocks)
   <= Py.code_points
        (HtmlGenerator.format_data_for_llm blocks images tables))%nat.
Proof.
  unfold HtmlGenerator.format_data_for_llm.
  eapply Nat.le_trans; [|apply total_length_join].
  eapply Nat.le_trans; [apply total_length_text_lines|].
  unfold HtmlGenerator.formatted_strings.
  destruct (Py.truthy tables), (Py.truthy images);
    rewrite ?total_length_app; cbn [total_length]; lia.
Qed.

(** X21: a page whose texts add up to more than 15000 characters is
    never sent to the Markdown model, whatever its boxes, images and
    tables: [generate_markdown_from_data] makes no call and returns the
    fallback document. *)
Theorem long_text_is_never_sent :
  forall model blocks images tables t,
    15000 < Z.of_nat (total_length (map TextBlock.text blocks)) ->
    HtmlGenerator.generate_markdown_from_data model blocks images tables t
    = (Ok (Py.join (Py.nl ++ Py.nl) (HtmlGenerator.fallback_md blocks)), t).
Proof.
  intros model blocks images tables t Hlong.
  pose proof (description_holds_the_texts blocks images tables) as Hdesc.
  unfold HtmlGenerator.generate_markdown_from_data.
  replace (Py.len _ >? HtmlGenerator.MAX_CHARS) with true; [reflexivity|].
  symmetry. apply Z.gtb_lt. unfold Py.len, HtmlGenerator.MAX_CHARS. lia.
Qed.

(** A page with a text of 15150 characters. *)
Lemma long_text_is_never_sent_witness :
  snd (HtmlGenerator.generate_markdown_from_data Samples.echo_model
         [Samples.block Samples.long_text] [] [] []) = [].
Proof.
  rewrite (long_text_is_never_sent Samples.echo_model
             [Samples.block Samples.long_text] [] [] []).
  - reflexivity.
  - vm_compute. reflexivity.
Defined.

(** X22: within the budget the two stages are chained without any
    check in between: what the first call answers is the content given
    to the second, after the nine characters of its introduction, and
    what the second call answers is the entry of the page, as it is. *)
Theorem stages_pass_model_output_on :
  forall model N all_text_data all_image_data all_table_data zip_file
         page_num t entry markdown_content final_html,
    let formatted_data :=
      HtmlGenerator.format_data_for_llm
        (PdfParser.PageText.blocks entry)
        (Main.page_image_data all_image_data page_num)
        (Main.page_tables all_table_data page_num) in
    Main.index all_text_data page_num = Ok entry ->
    Py.len formatted_data <= HtmlGenerator.MAX_CHARS ->
    model t (markdown_call formatted_data) = Ok markdown_content ->
    model (t ++ [ModelCall (markdown_call formatted_data)])%list
          (html_call markdown_content (page_num + 1) N)
    = Ok final_html ->
    Main.convert_page model N all_text_data all_image_data all_table_data
      zip_file page_num t
    = (Ok (zip_file
             ++ [(Main.page_entry_name (page_num + 1),
                  Main.Text final_html)])%list,
       (t ++ [ModelCall (markdown_call formatted_data);
              ModelCall (html_call markdown_content (page_num + 1) N)])%list).
Proof.
  intros model N all_text_data all_image_data all_table_data zip_file
         page_num t entry markdown_content final_html formatted_data
         Hindex Hfits Hmarkdown Hhtml.
  unfold Main.convert_page, bind, lift, ret. rewrite Hindex.
  unfold HtmlGenerator.generate_markdown_from_data.
  fold formatted_data.
  replace (Py.len formatted_data >? HtmlGenerator.MAX_CHARS) with false
    by (symmetry; rewrite Z.gtb_ltb; apply Z.ltb_ge; lia).
  unfold HtmlGenerator.generate_html_from_markdown,
    HtmlGenerator.chain_invoke.
  fold (markdown_call formatted_data). rewrite Hmarkdown.
  fold (html_call markdown_content (page_num + 1) N). rewrite Hhtml.
  unfold Main.writestr. now rewrite <- app_assoc.
Qed.

(** The first page of the sample text. *)
Lemma stages_pass_model_output_on_witness :
  exists c1 c2,
    Main.convert_page Samples.echo_model 2 Samples.two_pages_text [] [] []
      0 []
    = (Ok [("page-1.html", Main.Text "generated")],
       [ModelCall c1; ModelCall c2])
    /\ call_human c2 = "CONTENT:" ++ Py.nl ++ Py.nl ++ "generated".
Proof.
  do 2 eexists. split.
  - apply (stages_pass_model_output_on Samples.echo_model 2
             Samples.two_pages_text [] [] [] 0 []
             {| PdfParser.PageText.page_number := 0;
                PdfParser.PageText.blocks := [Samples.block "First page"] |}
             "generated" "generated");
      try reflexivity.
    vm_compute. discriminate.
  - reflexivity.
Defined.
